(** * CareerPulse: the client-side orchestration of [src/App.tsx] and the
      gateway wrappers of [src/services/geminiService.ts]

    The development follows the two source files.  [JsString] holds the few
    string primitives of the platform the code calls, [GeminiService] the
    gateway wrappers, [Renderer] the text-to-document layout of
    [downloadAsPDF], and [App] the component state with its handlers, each
    asynchronous handler cut at its [await]s. *)

From Stdlib Require Import String Ascii NArith ZArith QArith List Lia Lqa.
From stdpp Require Import base option list gmap.
Import ListNotations.

Close Scope Q_scope.
Local Open Scope N_scope.
Local Open Scope list_scope.

(** ** Strings of the platform *)

(** A JavaScript string is a sequence of UTF-16 code units. *)
Abbreviation jsstring := (list N).

Module JsString.

(** A literal of the source, written with ASCII characters only. *)
Fixpoint js (s : string) : jsstring :=
  match s with
  | EmptyString => []
  | String a s' => N_of_ascii a :: js s'
  end.

Definition in_range (lo hi c : N) : bool := (lo <=? c) && (c <=? hi).

(** [\s] of a regular expression, and what [trim] strips: the white space
    and line terminator code points of ECMAScript. *)
Definition isWhiteSpace (c : N) : bool :=
  in_range 9 13 c || (c =? 32) || (c =? 160) || (c =? 5760)
  || in_range 8192 8202 c || (c =? 8232) || (c =? 8233) || (c =? 8239)
  || (c =? 8287) || (c =? 12288) || (c =? 65279).

Fixpoint trimStart (s : jsstring) : jsstring :=
  match s with
  | c :: s' => if isWhiteSpace c then trimStart s' else s
  | [] => []
  end.

Definition trimEnd (s : jsstring) : jsstring := rev (trimStart (rev s)).

Definition trim (s : jsstring) : jsstring := trimEnd (trimStart s).

Fixpoint startsWith (s p : jsstring) {struct p} : bool :=
  match p, s with
  | [], _ => true
  | _ :: _, [] => false
  | a :: p', c :: s' => (a =? c) && startsWith s' p'
  end.

(** [s.includes(p)]: [p] occurs in [s] at some position. *)
Fixpoint includes (s p : jsstring) : bool :=
  startsWith s p ||
  match s with
  | [] => false
  | _ :: s' => includes s' p
  end.

Definition endsWith (s p : jsstring) : bool := startsWith (rev s) (rev p).

(** [s.split('\n')], written with the piece being read as an accumulator. *)
Fixpoint split_on (sep : N) (cur : jsstring) (s : jsstring) : list jsstring :=
  match s with
  | [] => [rev cur]
  | c :: s' =>
      if c =? sep then rev cur :: split_on sep [] s'
      else split_on sep (c :: cur) s'
  end.

Definition split_lines (s : jsstring) : list jsstring := split_on 10 [] s.

(** [s.replace(/\s+/g, r)]: scanning from the left, each maximal run of
    white space is one match of [\s+] and is replaced by [r]; [in_run]
    tells that the unit before belongs to the match being consumed. *)
Fixpoint replace_ws_from (r : jsstring) (in_run : bool) (s : jsstring) : jsstring :=
  match s with
  | [] => []
  | c :: s' =>
      if isWhiteSpace c
      then (if in_run then [] else r) ++ replace_ws_from r true s'
      else c :: replace_ws_from r false s'
  end.

Definition replace_ws_runs (r s : jsstring) : jsstring := replace_ws_from r false s.

End JsString.

(** ** Promises and gateway replies *)

(** How a promise settles. *)
Inductive outcome (A : Type) : Type :=
| Resolved (a : A)
| Rejected.
Arguments Resolved {A} a.
Arguments Rejected {A}.

(** What [ai.models.generateContent] resolves with, as far as the wrappers
    look at it: [text] is [response.text] ([None] when it is undefined) and
    [parsed] is what the platform's [JSON.parse] returns on that text, [None]
    when it throws. *)
Record response (A : Type) : Type := mkResponse {
  text : option jsstring;
  parsed : option A
}.
Arguments mkResponse {A} text parsed.
Arguments text {A} r.
Arguments parsed {A} r.

(** A string that may be undefined is truthy when it is there and not
    empty. *)
Definition truthy (t : option jsstring) : bool :=
  match t with
  | Some (_ :: _) => true
  | _ => false
  end.

(** [t || d] *)
Definition orElse (t : option jsstring) (d : jsstring) : jsstring :=
  match t with
  | Some (c :: s) => c :: s
  | _ => d
  end.

Module GeminiService.
Import JsString.

Record Job : Type := mkJob {
  title : jsstring;
  company : jsstring;
  location : jsstring;
  postedAt : jsstring;
  link : jsstring;
  description : jsstring;
  source : jsstring;
  isEasyApply : bool;
  contactEmail : option jsstring
}.

Record ResumeAnalysis : Type := mkResumeAnalysis {
  skills : list jsstring;
  experienceLevel : jsstring;
  suggestedRoles : list jsstring;
  summary : jsstring;
  candidateLocation : option jsstring;   (* [location?] of the interface *)
  experience : jsstring;
  education : jsstring;
  projects : jsstring
}.

Definition with_skills (a : ResumeAnalysis) (l : list jsstring) : ResumeAnalysis :=
  {| skills := l;
     experienceLevel := experienceLevel a;
     suggestedRoles := suggestedRoles a;
     summary := summary a;
     candidateLocation := candidateLocation a;
     experience := experience a;
     education := education a;
     projects := projects a |}.

Inductive TimeFilter : Type := H24 | H48 | H72.
Inductive JobType : Type := AllTypes | Onsite | Hybrid | Remote.

#[global] Instance TimeFilter_eq_dec : EqDecision TimeFilter.
Proof. solve_decision. Defined.
#[global] Instance JobType_eq_dec : EqDecision JobType.
Proof. solve_decision. Defined.

(** The value [JSON.parse] hands to [analyzeResume], seen through the
    guard [result.skills && Array.isArray(result.skills)]: an object of
    the declared shape whose [skills] is an array, or a value whose
    [skills] is falsy or not an array (the [{}] parsed when the reply has
    no text is one). *)
Inductive parsed_analysis : Type :=
| WithSkillArray (r : ResumeAnalysis)
| NoSkillArray.

Section Analyze.
(** [String.prototype.toLowerCase] of the platform. *)
Variable toLowerCase : jsstring -> jsstring.

Definition verbatim_filter (resumeText : jsstring) (l : list jsstring) : list jsstring :=
  let lowerResume := toLowerCase resumeText in
  List.filter
    (fun skill =>
       let lowerSkill := toLowerCase skill in
       includes lowerResume lowerSkill)
    l.

Definition analyzeResume (resumeText : jsstring)
    (generateContent : outcome (response parsed_analysis)) : outcome parsed_analysis :=
  match generateContent with
  | Rejected => Rejected
  | Resolved response =>
      let result :=
        if truthy (text response) then parsed response
        else Some NoSkillArray (* JSON.parse("{}") *) in
      match result with
      | None => Rejected
      | Some (WithSkillArray r) =>
          Resolved (WithSkillArray (with_skills r (verbatim_filter resumeText (skills r))))
      | Some NoSkillArray => Resolved NoSkillArray
      end
  end.
End Analyze.

(** [response.text || rawText] *)
Definition structureResume (rawText : jsstring)
    (generateContent : outcome (response unit)) : outcome jsstring :=
  match generateContent with
  | Rejected => Rejected
  | Resolved response =>
      Resolved (orElse (text response) rawText)
  end.

Definition join (sep : jsstring) (l : list jsstring) : jsstring :=
  match l with
  | [] => []
  | x :: l' => x ++ concat (map (fun y => sep ++ y) l')
  end.

(** The parts of the search prompt that depend on the arguments. *)
Record SearchCriteria : Type := mkCriteria {
  roles : jsstring;
  topSkills : jsstring;
  level : jsstring;
  locationConstraint : jsstring;
  timeQuery : jsstring
}.

Definition searchCriteria (analysis : ResumeAnalysis) (timeFilter : TimeFilter)
    (jobType : JobType) : SearchCriteria :=
  let timeQuery :=
    match timeFilter with
    | H24 => js "last 24 hours"
    | H48 => js "last 2 days"
    | H72 => js "last 3 days"
    end in
  let roles := join (js ", ") (suggestedRoles analysis) in
  let skills := join (js ", ") (firstn 5 (skills analysis)) in
  let locationConstraint :=
    if truthy (candidateLocation analysis)
    then js "STRICTLY filter for jobs in or near "
           ++ orElse (candidateLocation analysis) [] ++ js "."
    else js "If no specific location is found, search globally or for major tech hubs." in
  let locationConstraint :=
    match jobType with
    | Remote => js "ONLY search for 100% REMOTE jobs. Ignore any specific location mentioned on the resume for the job location itself, though the candidate's location is still relevant for timezones."
    | Hybrid => locationConstraint ++ js " ONLY search for HYBRID roles (partially remote, partially onsite)."
    | Onsite => locationConstraint ++ js " ONLY search for ONSITE roles (no remote work)."
    | AllTypes => locationConstraint
    end in
  {| roles := roles; topSkills := skills; level := experienceLevel analysis;
     locationConstraint := locationConstraint; timeQuery := timeQuery |}.

(** The tail of [searchJobs]: a reply that cannot be parsed is logged and
    answered with the empty list; only a failing gateway call rejects. *)
Definition searchJobs (generateContent : outcome (response (list Job))) : outcome (list Job) :=
  match generateContent with
  | Rejected => Rejected
  | Resolved response =>
      if truthy (text response) then
        match parsed response with
        | Some jobs => Resolved jobs
        | None => Resolved []
        end
      else Resolved [] (* JSON.parse("[]") *)
  end.

(** [{ tailoredResume, coverLetter }]; a field the parsed object lacks is
    undefined, as in the [{}] parsed when the reply has no text. *)
Record Tailored : Type := mkTailored {
  tailoredResume : option jsstring;
  coverLetter : option jsstring
}.

Definition generateTailoredContent (generateContent : outcome (response Tailored))
    : outcome Tailored :=
  match generateContent with
  | Rejected => Rejected
  | Resolved response =>
      if truthy (text response) then
        match parsed response with
        | Some c => Resolved c
        | None => Rejected
        end
      else Resolved {| tailoredResume := None; coverLetter := None |}
  end.

Record EmailContent : Type := mkEmailContent {
  subject : option jsstring;
  body : option jsstring
}.

Definition generateEmailContent (generateContent : outcome (response EmailContent))
    : outcome EmailContent :=
  match generateContent with
  | Rejected => Rejected
  | Resolved response =>
      if truthy (text response) then
        match parsed response with
        | Some c => Resolved c
        | None => Rejected
        end
      else Resolved {| subject := None; body := None |}
  end.

End GeminiService.

(** ** The document renderer: [downloadAsPDF] of [App.tsx] *)

Module Renderer.
Import JsString.
Local Open Scope Q_scope.

Inductive fontStyle : Type := Normal | Bold.

(** The calls made on the [jsPDF] document, in order.  The font family is
    always helvetica. *)
Inductive op : Type :=
| SetFont (style : fontStyle)
| SetFontSize (size : Q)
| SetTextColor (r g b : N)
| SetDrawColor (r g b : N)
| Line (x1 y1 x2 y2 : Q)
| TextAt (t : jsstring) (x y : Q)
| TextBlock (ls : list jsstring) (x y : Q)
| AddPage
| Save (filename : jsstring).

Definition isUpper (c : N) : bool := in_range 65 90 c.
Definition isLower (c : N) : bool := in_range 97 122 c.
Definition isDigit (c : N) : bool := in_range 48 57 c.
Definition isAlnum (c : N) : bool := isUpper c || isLower c || isDigit c.

(** [/^[A-Z\s]{3,}$/] *)
Definition allCaps (s : jsstring) : bool :=
  (3 <=? length s)%nat && forallb (fun c => isUpper c || isWhiteSpace c) s.

(** A code unit against an upper-case ASCII letter or a space of a pattern
    with the [i] flag: the unit itself or its lower-case letter. *)
Definition eq_ignore_case (p c : N) : bool :=
  (c =? p)%N || (isUpper p && (c =? p + 32)%N).

Fixpoint startsWith_i (s p : jsstring) {struct p} : bool :=
  match p, s with
  | [], _ => true
  | _ :: _, [] => false
  | a :: p', c :: s' => eq_ignore_case a c && startsWith_i s' p'
  end.

(** [/^(EXPERIENCE|EDUCATION|SKILLS|PROJECTS|SUMMARY|CONTACT|WORK HISTORY)/i] *)
Definition sectionKeywords : list jsstring :=
  map js ["EXPERIENCE"; "EDUCATION"; "SKILLS"; "PROJECTS"; "SUMMARY"; "CONTACT";
          "WORK HISTORY"]%string.

Definition startsWithKeyword (s : jsstring) : bool :=
  existsb (startsWith_i s) sectionKeywords.

Definition hash : N := 35.
Definition bulletGlyph : N := 8226.
Definition hyphen : N := 45.
Definition asterisk : N := 42.

Definition isHeader (trimmedLine : jsstring) : bool :=
  allCaps trimmedLine || startsWithKeyword trimmedLine || startsWith trimmedLine [hash].

Definition isBullet (trimmedLine : jsstring) : bool :=
  startsWith trimmedLine [bulletGlyph] || startsWith trimmedLine [hyphen]
  || startsWith trimmedLine [asterisk].

(** [replace(/^#\s*/, '')] *)
Definition stripHash (s : jsstring) : jsstring :=
  match s with
  | c :: s' => if (c =? hash)%N then trimStart s' else s
  | [] => []
  end.

(** [replace(/^[•\-*]\s*/, '')] *)
Definition stripBullet (s : jsstring) : jsstring :=
  match s with
  | c :: s' =>
      if (c =? bulletGlyph)%N || (c =? hyphen)%N || (c =? asterisk)%N
      then trimStart s' else s
  | [] => []
  end.

(** [[A-Za-z0-9\s,.-]] and the same class with [&]. *)
Definition nameChar (c : N) : bool :=
  isAlnum c || isWhiteSpace c || (c =? 44)%N || (c =? 46)%N || (c =? 45)%N.
Definition nameCharAmp (c : N) : bool := nameChar c || (c =? 38)%N.

(** [(\s\|\s|\s\s\s)[A-Za-z0-9\s,.-]+$] at the head of [s]. *)
Definition separatorThenName (s : jsstring) : bool :=
  match s with
  | a :: b :: c :: t =>
      isWhiteSpace a && ((b =? 124)%N || isWhiteSpace b) && isWhiteSpace c
      && negb (Nat.eqb (length t) 0) && forallb nameChar t
  | _ => false
  end.

(** [/^[A-Za-z0-9\s&,.-]+(\s\|\s|\s\s\s)[A-Za-z0-9\s,.-]+$/]: some
    non-empty prefix in the first class is followed by a separator and a
    name; [some] tells that the prefix read so far is not empty. *)
Fixpoint namePairFrom (some : bool) (s : jsstring) : bool :=
  (some && separatorThenName s) ||
  match s with
  | c :: s' => nameCharAmp c && namePairFrom true s'
  | [] => false
  end.

Definition isSubHeader (trimmedLine : jsstring) : bool :=
  namePairFrom false trimmedLine
  || ((length trimmedLine <? 50)%nat
      && (includes trimmedLine (js "20") || includes trimmedLine (js "Present"))).

Section Layout.
(** [doc.internal.pageSize.getWidth()], [doc.splitTextToSize] under the
    font style and size set at the call, and
    [String.prototype.toUpperCase]: the library's and the platform's. *)
Variable pageWidth : Q.
Variable splitTextToSize : fontStyle -> Q -> jsstring -> Q -> list jsstring.
Variable toUpperCase : jsstring -> jsstring.

Definition margin : Q := 20.

Definition lines_of (n : nat) : Q := inject_Z (Z.of_nat n).

(** One turn of [lines.forEach]: the calls made and the new [y]. *)
Definition renderLine (y : Q) (line : jsstring) : list op * Q :=
  let trimmedLine := trim line in
  match trimmedLine with
  | [] => ([], y + 4)
  | _ :: _ =>
      if isHeader trimmedLine then
        let headerText := toUpperCase (stripHash trimmedLine) in
        let y := if Qlt_le_dec 20 y then y + 6 else y in
        ([SetFont Bold; SetFontSize 12; SetTextColor 40 40 40;
          TextAt headerText margin y;
          SetDrawColor 200 200 200;
          Line margin (y + 2) (pageWidth - margin) (y + 2)],
         y + 2 + 5)
      else if isBullet trimmedLine then
        let bulletText := stripBullet trimmedLine in
        let splitText :=
          splitTextToSize Normal 10 bulletText (pageWidth - margin * 2 - 5) in
        ([SetFont Normal; SetFontSize 10; SetTextColor 60 60 60;
          TextAt [bulletGlyph] (margin + 2) y;
          TextBlock splitText (margin + 7) y],
         y + lines_of (length splitText) * 5.5)
      else
        let sub := isSubHeader trimmedLine in
        let style := if sub then Bold else Normal in
        let size := if sub then 10.5 else 10 in
        let tone := if sub then 50%N else 60%N in
        let splitText := splitTextToSize style size trimmedLine (pageWidth - margin * 2) in
        let overflow := Qlt_le_dec 275 (y + lines_of (length splitText) * 5) in
        let y' := if overflow then 20 else y in
        ([SetFont style; SetFontSize size; SetTextColor tone tone tone]
           ++ (if overflow then [AddPage] else [])
           ++ [TextBlock splitText margin y'],
         y' + lines_of (length splitText) * 5.5)
  end.

Fixpoint renderLines (y : Q) (lines : list jsstring) : list op * Q :=
  match lines with
  | [] => ([], y)
  | line :: rest =>
      let '(ops, y1) := renderLine y line in
      let '(ops', y2) := renderLines y1 rest in
      (ops ++ ops', y2)
  end.

Definition downloadAsPDF (content filename : jsstring) : list op :=
  let lines := split_lines content in
  fst (renderLines 20 lines) ++ [Save filename].
End Layout.

End Renderer.

(** ** The component: state, handlers and their continuations *)

Module App.
Import JsString GeminiService.

Inductive ArtifactKind : Type := ResumeKind | CoverLetterKind.

(** The [type] argument as it appears inside a template literal. *)
Definition kindName (type : ArtifactKind) : jsstring :=
  match type with
  | ResumeKind => js "resume"
  | CoverLetterKind => js "coverLetter"
  end.

Record EmailOptions : Type := mkEmailOptions {
  attachTailoredResume : bool;
  attachTailoredCoverLetter : bool;
  generateMailContent : bool;
  attachUploadedResume : bool
}.

(** The [useState] cells of [App], in the order of their declaration. *)
Record AppState : Type := mkAppState {
  resumeText : jsstring;
  isAnalyzing : bool;
  isSearching : bool;
  isGenerating : option jsstring;
  analysis : option ResumeAnalysis;
  jobs : list Job;
  expandedJobs : gset nat;
  timeFilter : TimeFilter;
  jobType : JobType;
  newSkill : jsstring;
  newSkillInModal : jsstring;
  isEditModalOpen : bool;
  editDraft : option ResumeAnalysis;
  history : list ResumeAnalysis;
  emailModalJob : option Job;
  emailOptions : EmailOptions;
  isSendingMail : bool;
  error : option jsstring
}.

Definition initialState : AppState :=
  {| resumeText := [];
     isAnalyzing := false;
     isSearching := false;
     isGenerating := None;
     analysis := None;
     jobs := [];
     expandedJobs := ∅;
     timeFilter := H24;
     jobType := AllTypes;
     newSkill := [];
     newSkillInModal := [];
     isEditModalOpen := false;
     editDraft := None;
     history := [];
     emailModalJob := None;
     emailOptions :=
       {| attachTailoredResume := true;
          attachTailoredCoverLetter := true;
          generateMailContent := true;
          attachUploadedResume := false |};
     isSendingMail := false;
     error := None |}.

(** The state setters. *)
Definition setResumeText v (s : AppState) : AppState :=
  mkAppState v (isAnalyzing s) (isSearching s) (isGenerating s) (analysis s)
    (jobs s) (expandedJobs s) (timeFilter s) (jobType s) (newSkill s)
    (newSkillInModal s) (isEditModalOpen s) (editDraft s) (history s)
    (emailModalJob s) (emailOptions s) (isSendingMail s) (error s).
Definition setIsAnalyzing v (s : AppState) : AppState :=
  mkAppState (resumeText s) v (isSearching s) (isGenerating s) (analysis s) (jobs s)
    (expandedJobs s) (timeFilter s) (jobType s) (newSkill s) (newSkillInModal s)
    (isEditModalOpen s) (editDraft s) (history s) (emailModalJob s) (emailOptions s)
    (isSendingMail s) (error s).
Definition setIsSearching v (s : AppState) : AppState :=
  mkAppState (resumeText s) (isAnalyzing s) v (isGenerating s) (analysis s) (jobs s)
    (expandedJobs s) (timeFilter s) (jobType s) (newSkill s) (newSkillInModal s)
    (isEditModalOpen s) (editDraft s) (history s) (emailModalJob s) (emailOptions s)
    (isSendingMail s) (error s).
Definition setIsGenerating v (s : AppState) : AppState :=
  mkAppState (resumeText s) (isAnalyzing s) (isSearching s) v (analysis s) (jobs s)
    (expandedJobs s) (timeFilter s) (jobType s) (newSkill s) (newSkillInModal s)
    (isEditModalOpen s) (editDraft s) (history s) (emailModalJob s) (emailOptions s)
    (isSendingMail s) (error s).
Definition setAnalysis v (s : AppState) : AppState :=
  mkAppState (resumeText s) (isAnalyzing s) (isSearching s) (isGenerating s) v
    (jobs s) (expandedJobs s) (timeFilter s) (jobType s) (newSkill s)
    (newSkillInModal s) (isEditModalOpen s) (editDraft s) (history s)
    (emailModalJob s) (emailOptions s) (isSendingMail s) (error s).
Definition setJobs v (s : AppState) : AppState :=
  mkAppState (resumeText s) (isAnalyzing s) (isSearching s) (isGenerating s)
    (analysis s) v (expandedJobs s) (timeFilter s) (jobType s) (newSkill s)
    (newSkillInModal s) (isEditModalOpen s) (editDraft s) (history s)
    (emailModalJob s) (emailOptions s) (isSendingMail s) (error s).
Definition setExpandedJobs v (s : AppState) : AppState :=
  mkAppState (resumeText s) (isAnalyzing s) (isSearching s) (isGenerating s)
    (analysis s) (jobs s) v (timeFilter s) (jobType s) (newSkill s)
    (newSkillInModal s) (isEditModalOpen s) (editDraft s) (history s)
    (emailModalJob s) (emailOptions s) (isSendingMail s) (error s).
Definition setTimeFilter v (s : AppState) : AppState :=
  mkAppState (resumeText s) (isAnalyzing s) (isSearching s) (isGenerating s)
    (analysis s) (jobs s) (expandedJobs s) v (jobType s) (newSkill s)
    (newSkillInModal s) (isEditModalOpen s) (editDraft s) (history s)
    (emailModalJob s) (emailOptions s) (isSendingMail s) (error s).
Definition setJobType v (s : AppState) : AppState :=
  mkAppState (resumeText s) (isAnalyzing s) (isSearching s) (isGenerating s)
    (analysis s) (jobs s) (expandedJobs s) (timeFilter s) v (newSkill s)
    (newSkillInModal s) (isEditModalOpen s) (editDraft s) (history s)
    (emailModalJob s) (emailOptions s) (isSendingMail s) (error s).
Definition setNewSkill v (s : AppState) : AppState :=
  mkAppState (resumeText s) (isAnalyzing s) (isSearching s) (isGenerating s)
    (analysis s) (jobs s) (expandedJobs s) (timeFilter s) (jobType s) v
    (newSkillInModal s) (isEditModalOpen s) (editDraft s) (history s)
    (emailModalJob s) (emailOptions s) (isSendingMail s) (error s).
Definition setNewSkillInModal v (s : AppState) : AppState :=
  mkAppState (resumeText s) (isAnalyzing s) (isSearching s) (isGenerating s)
    (analysis s) (jobs s) (expandedJobs s) (timeFilter s) (jobType s) (newSkill s) v
    (isEditModalOpen s) (editDraft s) (history s) (emailModalJob s) (emailOptions s)
    (isSendingMail s) (error s).
Definition setIsEditModalOpen v (s : AppState) : AppState :=
  mkAppState (resumeText s) (isAnalyzing s) (isSearching s) (isGenerating s)
    (analysis s) (jobs s) (expandedJobs s) (timeFilter s) (jobType s) (newSkill s)
    (newSkillInModal s) v (editDraft s) (history s) (emailModalJob s)
    (emailOptions s) (isSendingMail s) (error s).
Definition setEditDraft v (s : AppState) : AppState :=
  mkAppState (resumeText s) (isAnalyzing s) (isSearching s) (isGenerating s)
    (analysis s) (jobs s) (expandedJobs s) (timeFilter s) (jobType s) (newSkill s)
    (newSkillInModal s) (isEditModalOpen s) v (history s) (emailModalJob s)
    (emailOptions s) (isSendingMail s) (error s).
Definition setHistory v (s : AppState) : AppState :=
  mkAppState (resumeText s) (isAnalyzing s) (isSearching s) (isGenerating s)
    (analysis s) (jobs s) (expandedJobs s) (timeFilter s) (jobType s) (newSkill s)
    (newSkillInModal s) (isEditModalOpen s) (editDraft s) v (emailModalJob s)
    (emailOptions s) (isSendingMail s) (error s).
Definition setEmailModalJob v (s : AppState) : AppState :=
  mkAppState (resumeText s) (isAnalyzing s) (isSearching s) (isGenerating s)
    (analysis s) (jobs s) (expandedJobs s) (timeFilter s) (jobType s) (newSkill s)
    (newSkillInModal s) (isEditModalOpen s) (editDraft s) (history s) v
    (emailOptions s) (isSendingMail s) (error s).
Definition setEmailOptions v (s : AppState) : AppState :=
  mkAppState (resumeText s) (isAnalyzing s) (isSearching s) (isGenerating s)
    (analysis s) (jobs s) (expandedJobs s) (timeFilter s) (jobType s) (newSkill s)
    (newSkillInModal s) (isEditModalOpen s) (editDraft s) (history s)
    (emailModalJob s) v (isSendingMail s) (error s).
Definition setIsSendingMail v (s : AppState) : AppState :=
  mkAppState (resumeText s) (isAnalyzing s) (isSearching s) (isGenerating s)
    (analysis s) (jobs s) (expandedJobs s) (timeFilter s) (jobType s) (newSkill s)
    (newSkillInModal s) (isEditModalOpen s) (editDraft s) (history s)
    (emailModalJob s) (emailOptions s) v (error s).
Definition setError v (s : AppState) : AppState :=
  mkAppState (resumeText s) (isAnalyzing s) (isSearching s) (isGenerating s)
    (analysis s) (jobs s) (expandedJobs s) (timeFilter s) (jobType s) (newSkill s)
    (newSkillInModal s) (isEditModalOpen s) (editDraft s) (history s)
    (emailModalJob s) (emailOptions s) (isSendingMail s) v.

(** *** What is outside the component *)

(** Calls that leave the component: a document handed to [downloadAsPDF],
    a [console.error], and the mail link assigned to
    [window.location.href], kept as the three parts the link is built
    from (the body before [encodeURIComponent]). *)
Inductive effect : Type :=
| DownloadAsPDF (content filename : jsstring)
| ConsoleError
| MailTo (contactEmail : option jsstring) (subject : option jsstring) (body : jsstring).

(** An asynchronous handler suspended at an [await], with the values its
    closure holds. *)
Inductive task : Type :=
| AwaitRead (name : jsstring) (filter : TimeFilter) (type : JobType)
| AwaitExtract (filter : TimeFilter) (type : JobType)
| AwaitStructure (rawText : jsstring) (filter : TimeFilter) (type : JobType)
| AwaitAnalyze (structuredText : jsstring) (filter : TimeFilter) (type : JobType)
| AwaitSearch (currentAnalysis : ResumeAnalysis) (filter : TimeFilter) (type : JobType)
| AwaitTailor (text : jsstring) (job : Job) (type : ArtifactKind)
| AwaitMailContent (text : jsstring) (job : Job) (options : EmailOptions)
| AwaitMailTailor (text : jsstring) (job : Job) (options : EmailOptions)
    (subject body : option jsstring).

(** The component with its environment.  [dropJobType] is the [jobType]
    the memoised [onDrop] closed over ([useCallback] with the dependency
    list [[timeFilter]]); [crashed] tells that a render threw. *)
Record World : Type := mkWorld {
  app : AppState;
  dropJobType : JobType;
  pending : gmap nat task;
  nextId : nat;
  effects : list effect;
  crashed : bool
}.

Definition initialWorld : World :=
  {| app := initialState; dropJobType := AllTypes; pending := ∅; nextId := 0%nat;
     effects := []; crashed := false |}.

Definition upd (f : AppState -> AppState) (w : World) : World :=
  {| app := f (app w); dropJobType := dropJobType w; pending := pending w;
     nextId := nextId w; effects := effects w; crashed := crashed w |}.

Definition spawn (t : task) (w : World) : World :=
  {| app := app w; dropJobType := dropJobType w;
     pending := <[nextId w := t]> (pending w);
     nextId := S (nextId w); effects := effects w; crashed := crashed w |}.

Definition finish (id : nat) (w : World) : World :=
  {| app := app w; dropJobType := dropJobType w;
     pending := delete id (pending w);
     nextId := nextId w; effects := effects w; crashed := crashed w |}.

Definition emit (e : effect) (w : World) : World :=
  {| app := app w; dropJobType := dropJobType w; pending := pending w;
     nextId := nextId w; effects := effects w ++ [e]; crashed := crashed w |}.

Definition crash (w : World) : World :=
  {| app := app w; dropJobType := dropJobType w; pending := pending w;
     nextId := nextId w; effects := effects w; crashed := true |}.

Definition nl : jsstring := [10].

(** *** Job search *)

Definition searchFailed : jsstring := js "Failed to fetch jobs. Please try again.".

(** [handleSearch] up to its [await]. *)
Definition handleSearch (currentAnalysis : ResumeAnalysis) (filter : TimeFilter)
    (type : JobType) (w : World) : World :=
  let w := upd (setIsSearching true) w in
  let w := upd (setError None) w in
  spawn (AwaitSearch currentAnalysis filter type) w.

(** [handleSearch] from the point [searchJobs] settles. *)
Definition handleSearch_settled (o : outcome (list Job)) (w : World) : World :=
  let w :=
    match o with
    | Resolved results => upd (setJobs results) w
    | Rejected => emit ConsoleError (upd (setError (Some searchFailed)) w)
    end in
  upd (setIsSearching false) w.

Definition changeFilter (newFilter : TimeFilter) (w : World) : World :=
  let s := app w in
  let w := upd (setTimeFilter newFilter) w in
  match analysis s with
  | Some a => handleSearch a newFilter (jobType s) w
  | None => w
  end.

Definition changeJobType (newType : JobType) (w : World) : World :=
  let s := app w in
  let w := upd (setJobType newType) w in
  match analysis s with
  | Some a => handleSearch a (timeFilter s) newType w
  | None => w
  end.

Definition toggleJobExpansion (index : nat) (w : World) : World :=
  upd (fun s =>
         let prev := expandedJobs s in
         setExpandedJobs (if decide (index ∈ prev) then prev ∖ {[index]}
                          else prev ∪ {[index]}) s) w.

(** *** The profile: skills and the edit session *)

(** [Set.prototype.add]: a value already present is not added again, a new
    one goes last. *)
Definition set_add (s : list jsstring) (x : jsstring) : list jsstring :=
  if decide (x ∈ s) then s else s ++ [x].

(** [[...new Set(l)]] *)
Definition newSet (l : list jsstring) : list jsstring := fold_left set_add l [].

Definition handleAddSkill (w : World) : World :=
  let s := app w in
  match trim (newSkill s), analysis s with
  | _ :: _, Some a =>
      let updatedAnalysis := with_skills a (newSet (skills a ++ [trim (newSkill s)])) in
      let w := upd (setAnalysis (Some updatedAnalysis)) w in
      let w := upd (setNewSkill []) w in
      handleSearch updatedAnalysis (timeFilter s) (jobType s) w
  | _, _ => w
  end.

Definition without (skillToRemove : jsstring) (l : list jsstring) : list jsstring :=
  filter (fun s => s ≠ skillToRemove) l.

Definition handleRemoveSkill (skillToRemove : jsstring) (w : World) : World :=
  let s := app w in
  match analysis s with
  | Some a =>
      let updatedAnalysis := with_skills a (without skillToRemove (skills a)) in
      let w := upd (setAnalysis (Some updatedAnalysis)) w in
      handleSearch updatedAnalysis (timeFilter s) (jobType s) w
  | None => w
  end.

Definition openEditModal (w : World) : World :=
  match analysis (app w) with
  | Some a =>
      upd (setIsEditModalOpen true) (upd (setHistory [a]) (upd (setEditDraft (Some a)) w))
  | None => w
  end.

(** A [field] of [ResumeAnalysis] with a value for it. *)
Inductive fieldValue : Type :=
| SkillsField (v : list jsstring)
| ExperienceLevelField (v : jsstring)
| SuggestedRolesField (v : list jsstring)
| SummaryField (v : jsstring)
| LocationField (v : option jsstring)
| ExperienceField (v : jsstring)
| EducationField (v : jsstring)
| ProjectsField (v : jsstring).

(** [{ ...editDraft, [field]: value }] *)
Definition with_field (d : ResumeAnalysis) (fv : fieldValue) : ResumeAnalysis :=
  let '(mkResumeAnalysis sk lv ro su lo ex ed pr) := d in
  match fv with
  | SkillsField v => mkResumeAnalysis v lv ro su lo ex ed pr
  | ExperienceLevelField v => mkResumeAnalysis sk v ro su lo ex ed pr
  | SuggestedRolesField v => mkResumeAnalysis sk lv v su lo ex ed pr
  | SummaryField v => mkResumeAnalysis sk lv ro v lo ex ed pr
  | LocationField v => mkResumeAnalysis sk lv ro su v ex ed pr
  | ExperienceField v => mkResumeAnalysis sk lv ro su lo v ed pr
  | EducationField v => mkResumeAnalysis sk lv ro su lo ex v pr
  | ProjectsField v => mkResumeAnalysis sk lv ro su lo ex ed v
  end.

Definition handleUpdateDraft (fv : fieldValue) (w : World) : World :=
  match editDraft (app w) with
  | Some d => upd (setEditDraft (Some (with_field d fv))) w
  | None => w
  end.

Definition saveField (w : World) : World :=
  match editDraft (app w) with
  | Some d => upd (fun s => setHistory (history s ++ [d]) s) w
  | None => w
  end.

(** [prev.slice(0, -1)] *)
Definition dropLast (l : list ResumeAnalysis) : list ResumeAnalysis :=
  take (length l - 1) l.

Definition undoField (w : World) : World :=
  let s := app w in
  if (1 <? length (history s))%nat then
    let previous := history s !! (length (history s) - 2)%nat in
    let w := upd (setEditDraft previous) w in
    upd (fun s => setHistory (dropLast (history s)) s) w
  else w.

Definition handleRefineSearch (w : World) : World :=
  let s := app w in
  match editDraft s with
  | Some d =>
      let w := upd (setAnalysis (Some d)) w in
      let w := upd (setIsEditModalOpen false) w in
      handleSearch d (timeFilter s) (jobType s) w
  | None => w
  end.

(** The two controls of the modal that add a skill to the draft. *)
Definition addSkillInModal (w : World) : World :=
  let s := app w in
  match trim (newSkillInModal s), editDraft s with
  | _ :: _, Some d =>
      let w :=
        handleUpdateDraft
          (SkillsField (newSet (skills d ++ [trim (newSkillInModal s)]))) w in
      upd (setNewSkillInModal []) w
  | _, _ => w
  end.

Definition removeSkillInModal (skill : jsstring) (w : World) : World :=
  match editDraft (app w) with
  | Some d => handleUpdateDraft (SkillsField (without skill (skills d))) w
  | None => w
  end.

(** *** Tailoring and the application email *)

Definition generationKey (job : Job) (type : ArtifactKind) : jsstring :=
  link job ++ js "-" ++ kindName type.

(** [handleGenerateTailored] up to its [await]. *)
Definition handleGenerateTailored (job : Job) (type : ArtifactKind) (w : World) : World :=
  let w := upd (setIsGenerating (Some (generationKey job type))) w in
  spawn (AwaitTailor (resumeText (app w)) job type) w.

(** The two controls of a job card are rendered with
    [disabled={isGenerating !== null}]. *)
Definition clickTailor (job : Job) (type : ArtifactKind) (w : World) : World :=
  match isGenerating (app w) with
  | Some _ => w
  | None => handleGenerateTailored job type w
  end.

Definition tailoredFilename (job : Job) (type : ArtifactKind) : jsstring :=
  match type with
  | ResumeKind => js "Tailored_Resume_" ++ replace_ws_runs (js "_") (company job) ++ js ".pdf"
  | CoverLetterKind => js "Cover_Letter_" ++ replace_ws_runs (js "_") (company job) ++ js ".pdf"
  end.

Definition tailoringFailed (type : ArtifactKind) : jsstring :=
  js "Failed to generate tailored " ++ kindName type ++ js ".".

(** [downloadAsPDF(content, filename)] inside a [try]: an undefined
    [content] makes [content.split] throw. *)
Definition download (content : option jsstring) (filename : jsstring) (w : World)
    : outcome World :=
  match content with
  | Some c => Resolved (emit (DownloadAsPDF c filename) w)
  | None => Rejected
  end.

(** [handleGenerateTailored] from the point [generateTailoredContent]
    settles. *)
Definition handleGenerateTailored_settled (job : Job) (type : ArtifactKind)
    (o : outcome Tailored) (w : World) : World :=
  let failed := emit ConsoleError (upd (setError (Some (tailoringFailed type))) w) in
  let w :=
    match o with
    | Resolved c =>
        let content :=
          match type with
          | ResumeKind => tailoredResume c
          | CoverLetterKind => coverLetter c
          end in
        match download content (tailoredFilename job type) w with
        | Resolved w' => w'
        | Rejected => failed
        end
    | Rejected => failed
    end in
  upd (setIsGenerating None) w.

Definition mailFailed : jsstring := js "Failed to prepare email application.".

(** [String(v)] of a value that may be undefined. *)
Definition toStr (v : option jsstring) : jsstring := default (js "undefined") v.

Definition handleSendMail_failed (w : World) : World :=
  let w := emit ConsoleError (upd (setError (Some mailFailed)) w) in
  upd (setIsSendingMail false) w.

(** The attachment notes written so far with the world, or the world at
    the point a [downloadAsPDF] threw. *)
Inductive attempt : Type :=
| Done (attachmentsInfo : jsstring) (w : World)
| Threw (w : World).

(** [if (enabled) { attachmentsInfo += note; downloadAsPDF(content, filename); }] *)
Definition attach (enabled : bool) (note : jsstring) (content : option jsstring)
    (filename : jsstring) (a : attempt) : attempt :=
  match a with
  | Threw w => Threw w
  | Done info w =>
      if enabled then
        match download content filename w with
        | Resolved w' => Done (info ++ note) w'
        | Rejected => Threw w
        end
      else Done info w
  end.

(** [handleSendMail] from the comment "Prepare attachments info" on, once
    the tailored content, if any was asked for, is there. *)
Definition handleSendMail_attach (text : jsstring) (job : Job) (options : EmailOptions)
    (subject body : option jsstring) (tailored : option Tailored) (w : World) : World :=
  let attachmentsInfo :=
    nl ++ nl ++ js "--- Attachments Prepared (Please attach these files manually) ---" in
  let a := Done attachmentsInfo w in
  let a :=
    match tailored with
    | Some c =>
        let a :=
          attach (attachTailoredResume options)
            (nl ++ js "- Tailored Resume (PDF Generated)") (tailoredResume c)
            (js "Tailored_Resume_" ++ company job ++ js ".pdf") a in
        attach (attachTailoredCoverLetter options)
          (nl ++ js "- Tailored Cover Letter (PDF Generated)") (coverLetter c)
          (js "Cover_Letter_" ++ company job ++ js ".pdf") a
    | None => a
    end in
  let a :=
    attach (attachUploadedResume options)
      (nl ++ js "- Original Uploaded Resume (PDF Generated)") (Some text)
      (js "Original_Resume.pdf") a in
  match a with
  | Threw w' => handleSendMail_failed w'
  | Done info w' =>
      let w' := emit (MailTo (contactEmail job) subject (toStr body ++ info)) w' in
      let w' := upd (setEmailModalJob None) w' in
      upd (setIsSendingMail false) w'
  end.

(** [handleSendMail] once subject and body are there, up to the [await]
    of the tailoring call when an attachment toggle asks for one. *)
Definition handleSendMail_composed (text : jsstring) (job : Job) (options : EmailOptions)
    (subject body : option jsstring) (w : World) : World :=
  if attachTailoredResume options || attachTailoredCoverLetter options
  then spawn (AwaitMailTailor text job options subject body) w
  else handleSendMail_attach text job options subject body None w.

(** [handleSendMail] up to its first [await]. *)
Definition handleSendMail (w : World) : World :=
  let s := app w in
  match emailModalJob s with
  | None => w
  | Some job =>
      let w := upd (setIsSendingMail true) w in
      let subject := js "Application for " ++ title job ++ js " at " ++ company job in
      let body :=
        js "Hi " ++ company job ++ js " Team," ++ nl ++ nl
          ++ js "I am interested in the " ++ title job ++ js " position." in
      if generateMailContent (emailOptions s)
      then spawn (AwaitMailContent (resumeText s) job (emailOptions s)) w
      else handleSendMail_composed (resumeText s) job (emailOptions s)
             (Some subject) (Some body) w
  end.

(** The send control of the email modal is rendered with
    [disabled={isSendingMail}]. *)
Definition clickSendMail (w : World) : World :=
  if isSendingMail (app w) then w else handleSendMail w.

Definition handleSendMail_content_settled (text : jsstring) (job : Job)
    (options : EmailOptions) (o : outcome EmailContent) (w : World) : World :=
  match o with
  | Resolved content =>
      handleSendMail_composed text job options (subject content) (body content) w
  | Rejected => handleSendMail_failed w
  end.

Definition handleSendMail_tailor_settled (text : jsstring) (job : Job)
    (options : EmailOptions) (subject body : option jsstring)
    (o : outcome Tailored) (w : World) : World :=
  match o with
  | Resolved c => handleSendMail_attach text job options subject body (Some c) w
  | Rejected => handleSendMail_failed w
  end.

Inductive optionId : Type :=
| AttachTailoredResume | AttachTailoredCoverLetter | GenerateMailContent
| AttachUploadedResume.

(** [{ ...prev, [option.id]: !prev[option.id] }] *)
Definition toggleOption (id : optionId) (prev : EmailOptions) : EmailOptions :=
  let '(mkEmailOptions r c g u) := prev in
  match id with
  | AttachTailoredResume => mkEmailOptions (negb r) c g u
  | AttachTailoredCoverLetter => mkEmailOptions r (negb c) g u
  | GenerateMailContent => mkEmailOptions r c (negb g) u
  | AttachUploadedResume => mkEmailOptions r c g (negb u)
  end.

(** The "Upload New" control: [setAnalysis(null); setJobs([]); setResumeText('')]. *)
Definition uploadNew (w : World) : World :=
  upd (setResumeText []) (upd (setJobs []) (upd (setAnalysis None) w)).

(** *** The upload pipeline: [onDrop] *)

Definition uploadFailed : jsstring :=
  js "Failed to process resume. Please try a different format or a .txt file.".

(** [onDrop]: the first accepted file is handed to a [FileReader]. *)
Definition onDrop (acceptedFiles : list jsstring) (w : World) : World :=
  match acceptedFiles with
  | name :: _ => spawn (AwaitRead name (timeFilter (app w)) (dropJobType w)) w
  | [] => w
  end.

(** The [catch] and [finally] of [reader.onload]. *)
Definition onDrop_failed (w : World) : World :=
  let w := emit ConsoleError (upd (setError (Some uploadFailed)) w) in
  upd (setIsAnalyzing false) w.

(** [reader.onload] from the test of the raw text to the [await] of
    [structureResume]. *)
Definition onDrop_extracted (rawText : jsstring) (filter : TimeFilter) (type : JobType)
    (w : World) : World :=
  match trim rawText with
  | [] => onDrop_failed w
  | _ :: _ => spawn (AwaitStructure rawText filter type) w
  end.

(** [reader.onload] up to its first [await]; [decoded] is what
    [TextDecoder.decode] gives on the bytes read. *)
Definition onDrop_loaded (name decoded : jsstring) (filter : TimeFilter) (type : JobType)
    (w : World) : World :=
  let w := upd (setIsAnalyzing true) w in
  let w := upd (setError None) w in
  if endsWith name (js ".docx") then spawn (AwaitExtract filter type) w
  else onDrop_extracted decoded filter type w.

Definition onDrop_extract_settled (filter : TimeFilter) (type : JobType)
    (o : outcome jsstring) (w : World) : World :=
  match o with
  | Resolved rawText => onDrop_extracted rawText filter type w
  | Rejected => onDrop_failed w
  end.

Definition onDrop_structure_settled (filter : TimeFilter) (type : JobType)
    (o : outcome jsstring) (w : World) : World :=
  match o with
  | Resolved structuredText =>
      let w := upd (setResumeText structuredText) w in
      spawn (AwaitAnalyze structuredText filter type) w
  | Rejected => onDrop_failed w
  end.

(** The last stage.  A result without a skills array is stored like any
    other; the view then throws on [analysis.skills.map] while rendering. *)
Definition onDrop_analyze_settled (filter : TimeFilter) (type : JobType)
    (o : outcome parsed_analysis) (w : World) : World :=
  match o with
  | Resolved (WithSkillArray result) =>
      let w := upd (setAnalysis (Some result)) w in
      let w := handleSearch result filter type w in
      upd (setIsAnalyzing false) w
  | Resolved NoSkillArray => crash w
  | Rejected => onDrop_failed w
  end.

(** *** Events *)

Inductive event : Type :=
| DropFiles (acceptedFiles : list jsstring)
| ReadDone (id : nat) (decoded : jsstring)
| ExtractSettled (id : nat) (o : outcome jsstring)
| StructureSettled (id : nat) (o : outcome (response unit))
| AnalyzeSettled (id : nat) (o : outcome (response parsed_analysis))
| SearchSettled (id : nat) (o : outcome (response (list Job)))
| TailorSettled (id : nat) (o : outcome (response Tailored))
| ComposeSettled (id : nat) (o : outcome (response EmailContent))
| ChangeFilter (newFilter : TimeFilter)
| ChangeJobType (newType : JobType)
| ToggleJob (index : nat)
| TypeSkill (value : jsstring)
| SubmitSkill
| RemoveSkill (skill : jsstring)
| OpenEdit
| UpdateDraft (fv : fieldValue)
| SaveField
| UndoClick
| RefineSearch
| CloseEdit
| TypeSkillInModal (value : jsstring)
| AddSkillInModal
| RemoveSkillInModal (skill : jsstring)
| ClickTailor (index : nat) (type : ArtifactKind)
| OpenEmail (index : nat)
| CloseEmail
| ToggleOption (id : optionId)
| ClickSendMail
| UploadNew.

(** Whether the view is the profile with the job board ([analysis] is
    set) and not the upload zone. *)
Definition board (s : AppState) : bool := bool_decide (is_Some (analysis s)).

(** The job card at [index], rendered when no search is running. *)
Definition card (s : AppState) (index : nat) : option Job :=
  if board s && negb (isSearching s) then jobs s !! index else None.

Definition editModal (s : AppState) : bool :=
  isEditModalOpen s && bool_decide (is_Some (editDraft s)).

Definition emailModal (s : AppState) : bool := bool_decide (is_Some (emailModalJob s)).

Section Dynamics.
Variable toLowerCase : jsstring -> jsstring.

(** One event on a running component; a control that is not rendered
    has no event, a settlement that finds no task of its kind none
    either. *)
Definition dispatch (e : event) (w : World) : World :=
  let s := app w in
  match e with
  | DropFiles acceptedFiles => if board s then w else onDrop acceptedFiles w
  | ReadDone id decoded =>
      match pending w !! id with
      | Some (AwaitRead name filter type) =>
          onDrop_loaded name decoded filter type (finish id w)
      | _ => w
      end
  | ExtractSettled id o =>
      match pending w !! id with
      | Some (AwaitExtract filter type) =>
          onDrop_extract_settled filter type o (finish id w)
      | _ => w
      end
  | StructureSettled id o =>
      match pending w !! id with
      | Some (AwaitStructure rawText filter type) =>
          onDrop_structure_settled filter type (structureResume rawText o) (finish id w)
      | _ => w
      end
  | AnalyzeSettled id o =>
      match pending w !! id with
      | Some (AwaitAnalyze structuredText filter type) =>
          onDrop_analyze_settled filter type
            (analyzeResume toLowerCase structuredText o) (finish id w)
      | _ => w
      end
  | SearchSettled id o =>
      match pending w !! id with
      | Some (AwaitSearch _ _ _) => handleSearch_settled (searchJobs o) (finish id w)
      | _ => w
      end
  | TailorSettled id o =>
      match pending w !! id with
      | Some (AwaitTailor _ job type) =>
          handleGenerateTailored_settled job type (generateTailoredContent o) (finish id w)
      | Some (AwaitMailTailor text job options subject body) =>
          handleSendMail_tailor_settled text job options subject body
            (generateTailoredContent o) (finish id w)
      | _ => w
      end
  | ComposeSettled id o =>
      match pending w !! id with
      | Some (AwaitMailContent text job options) =>
          handleSendMail_content_settled text job options (generateEmailContent o)
            (finish id w)
      | _ => w
      end
  | ChangeFilter newFilter => if board s then changeFilter newFilter w else w
  | ChangeJobType newType => if board s then changeJobType newType w else w
  | ToggleJob index =>
      match card s index with
      | Some _ => toggleJobExpansion index w
      | None => w
      end
  | TypeSkill value => if board s then upd (setNewSkill value) w else w
  | SubmitSkill => if board s then handleAddSkill w else w
  | RemoveSkill skill => if board s then handleRemoveSkill skill w else w
  | OpenEdit => if board s then openEditModal w else w
  | UpdateDraft fv => if editModal s then handleUpdateDraft fv w else w
  | SaveField => if editModal s then saveField w else w
  | UndoClick => if editModal s then undoField w else w
  | RefineSearch => if editModal s then handleRefineSearch w else w
  | CloseEdit => if editModal s then upd (setIsEditModalOpen false) w else w
  | TypeSkillInModal value =>
      if editModal s then upd (setNewSkillInModal value) w else w
  | AddSkillInModal => if editModal s then addSkillInModal w else w
  | RemoveSkillInModal skill => if editModal s then removeSkillInModal skill w else w
  | ClickTailor index type =>
      match card s index with
      | Some job => clickTailor job type w
      | None => w
      end
  | OpenEmail index =>
      match card s index with
      | Some job =>
          if truthy (contactEmail job) then upd (setEmailModalJob (Some job)) w else w
      | None => w
      end
  | CloseEmail => if emailModal s then upd (setEmailModalJob None) w else w
  | ToggleOption id =>
      if emailModal s
      then upd (fun s => setEmailOptions (toggleOption id (emailOptions s)) s) w
      else w
  | ClickSendMail => if emailModal s then clickSendMail w else w
  | UploadNew => if board s then uploadNew w else w
  end.

(** The render after an event: [onDrop] is made anew, closing over the
    current [jobType], when [timeFilter] differs from the render before. *)
Definition rerender (before : TimeFilter) (w : World) : World :=
  if decide (timeFilter (app w) = before) then w
  else {| app := app w; dropJobType := jobType (app w); pending := pending w;
          nextId := nextId w; effects := effects w; crashed := crashed w |}.

Definition step (w : World) (e : event) : World :=
  if crashed w then w
  else rerender (timeFilter (app w)) (dispatch e w).

Definition run (w : World) (es : list event) : World := fold_left step es w.
End Dynamics.

End App.


(** ** Notions of the specification and sample data *)

Module Spec.
Import JsString GeminiService App.

(** [skill] is a case-insensitive substring of [resumeText]: after lower
    casing, the text is the skill with something before and after it. *)
Definition ci_substring (toLowerCase : jsstring -> jsstring) (skill resumeText : jsstring)
    : Prop :=
  exists before after, toLowerCase resumeText = before ++ toLowerCase skill ++ after.

(** The maximal runs of [s], each with whether its units satisfy [p]. *)
Fixpoint runs (p : N -> bool) (s : jsstring) : list (bool * jsstring) :=
  match s with
  | [] => []
  | c :: s' =>
      match runs p s' with
      | (b, r) :: rest =>
          if Bool.eqb b (p c) then (b, c :: r) :: rest
          else (p c, [c]) :: (b, r) :: rest
      | [] => [(p c, [c])]
      end
  end.

(** Every run of units satisfying [p] collapsed to the single unit [sep]. *)
Definition collapse_runs (p : N -> bool) (sep : N) (s : jsstring) : jsstring :=
  concat (map (fun '(b, r) => if b : bool then [sep] else r) (runs p s)).

Definition artifactLabel (type : ArtifactKind) : jsstring :=
  match type with
  | ResumeKind => js "Tailored_Resume_"
  | CoverLetterKind => js "Cover_Letter_"
  end.

(** The filename of the specification: an artifact-type label and the
    company name with every run of non-alphanumeric characters collapsed to
    a single separator. *)
Definition spec_filename (type : ArtifactKind) (companyName : jsstring) : jsstring :=
  artifactLabel type
    ++ collapse_runs (fun c => negb (Renderer.isAlnum c)) 95 companyName ++ js ".pdf".

(** A call of the Profile Store on the skill set. *)
Inductive skillCall : Type :=
| AddSkill (s : jsstring)
| RemoveSkillCall (s : jsstring).

(** [addSkill(s)] is the form submitted with [s] in the input field. *)
Definition callSkill (w : World) (c : skillCall) : World :=
  match c with
  | AddSkill s => handleAddSkill (upd (setNewSkill s) w)
  | RemoveSkillCall s => handleRemoveSkill s w
  end.

Definition callSkills (w : World) (cs : list skillCall) : World := fold_left callSkill cs w.

Definition liveSkills (w : World) : list jsstring :=
  match analysis (app w) with
  | Some a => skills a
  | None => []
  end.

Definition isTailorTask (t : task) : bool :=
  match t with
  | AwaitTailor _ _ _ => true
  | _ => false
  end.

(** A task that waits for the gateway's tailoring operation, from a job
    card or from the application email. *)
Definition awaitsTailoring (t : task) : bool :=
  match t with
  | AwaitTailor _ _ _ | AwaitMailTailor _ _ _ _ _ => true
  | _ => false
  end.

Definition tailoringInFlight (w : World) : list (nat * task) :=
  List.filter (fun it => awaitsTailoring (snd it)) (map_to_list (pending w)).

(** Every pending task was given an identifier below the next one. *)
Definition idsBelowNext (w : World) : Prop :=
  forall i t, pending w !! i = Some t -> (i < nextId w)%nat.

(** No generation started from a job card is pending. *)
Definition noCardGeneration (w : World) : Prop :=
  forall i t, pending w !! i = Some t -> isTailorTask t = false.

(** The generation key is set exactly while one generation started from a
    job card is pending, and there is never a second one. *)
Definition keyGuardsCards (w : World) : Prop :=
  idsBelowNext w /\
  match isGenerating (app w) with
  | None => noCardGeneration w
  | Some _ =>
      exists i, (exists t, pending w !! i = Some t /\ isTailorTask t = true) /\
                forall j t, pending w !! j = Some t -> isTailorTask t = true -> j = i
  end.

Definition isAddPage (o : Renderer.op) : bool :=
  match o with
  | Renderer.AddPage => true
  | _ => false
  end.

(** The number of pages started after the first. *)
Definition pagesAdded (ops : list Renderer.op) : nat :=
  length (List.filter isAddPage ops).

(** Some text is placed at a vertical position beyond [limit]. *)
Definition drawnBeyond (limit : Q) (ops : list Renderer.op) : bool :=
  existsb
    (fun o =>
       match o with
       | Renderer.TextAt _ _ y | Renderer.TextBlock _ _ y => negb (Qle_bool y limit)
       | _ => false
       end)
    ops.

End Spec.

Module Samples.
Import JsString GeminiService App.

(** [toLowerCase] on strings of ASCII code units. *)
Definition asciiLower (s : jsstring) : jsstring :=
  map (fun c => if in_range 65 90 c then c + 32 else c) s.

(** A gateway reply whose text parses to [v]. *)
Definition reply {A : Type} (v : A) : outcome (response A) :=
  Resolved {| text := Some (js "{...}"); parsed := Some v |}.

(** A gateway reply whose text is not JSON. *)
Definition garbled {A : Type} : outcome (response A) :=
  Resolved {| text := Some (js "Sorry, I cannot help."); parsed := None |}.

(** A gateway reply without text. *)
Definition silent {A : Type} : outcome (response A) :=
  Resolved {| text := None; parsed := None |}.

Definition profile (l : list jsstring) : ResumeAnalysis :=
  {| skills := l; experienceLevel := js "Senior"; suggestedRoles := [js "Engineer"];
     summary := js "Builds things."; candidateLocation := None;
     experience := js "Acme"; education := js "BS"; projects := [] |}.

Definition acme : Job :=
  {| title := js "Engineer"; company := js "Acme & Sons  Ltd"; location := js "Oslo";
     postedAt := js "2 hours ago"; link := js "https://acme.example/jobs/1";
     description := js "Build."; source := js "acme.example"; isEasyApply := false;
     contactEmail := Some (js "jobs@acme.example") |}.

Definition globex : Job :=
  {| title := js "Analyst"; company := js "Globex"; location := js "Bergen";
     postedAt := js "5 hours ago"; link := js "https://globex.example/jobs/7";
     description := js "Analyse."; source := js "globex.example"; isEasyApply := true;
     contactEmail := Some (js "hr@globex.example") |}.

Definition resumeBytes : jsstring := js "JANE DOE  React and Rocq, 2020".

(** An upload of a text file carried through to its first search result:
    the profile is on screen and two job cards are rendered. *)
Definition uploaded : list App.event :=
  [DropFiles [js "cv.txt"]; ReadDone 0 resumeBytes; StructureSettled 1 silent;
   AnalyzeSettled 2 (reply (WithSkillArray (profile [js "React"; js "Rocq"])));
   SearchSettled 3 (reply [acme; globex])].

Definition board : World := run asciiLower initialWorld uploaded.

(** The profile on screen with its two jobs and one search pending. *)
Definition oneSearch : World := run asciiLower initialWorld (uploaded ++ [ChangeFilter H48]).

(** The profile on screen with two searches pending: A, task 4, for the
    last two days, and B, task 5, for the last three. *)
Definition twoSearches : World :=
  run asciiLower initialWorld (uploaded ++ [ChangeFilter H48; ChangeFilter H72]).

(** A file dropped and read, with the structuring request pending as
    task 1. *)
Definition structuring : World :=
  run asciiLower initialWorld [DropFiles [js "cv.txt"]; ReadDone 0 resumeBytes].

(** A text file read and structured, with the analysis of its text
    pending as task 2. *)
Definition analyzing : World :=
  run asciiLower initialWorld
    [DropFiles [js "cv.txt"]; ReadDone 0 (js "I know React and Rocq");
     StructureSettled 1 silent].

(** An upload whose analysis reply names a skill twice. *)
Definition duplicated : World :=
  run asciiLower initialWorld
    [DropFiles [js "cv.txt"]; ReadDone 0 resumeBytes; StructureSettled 1 silent;
     AnalyzeSettled 2 (reply (WithSkillArray (profile [js "React"; js "Rocq"; js "React"])))].

(** The width of an A4 page in millimetres, a wrapping that finds every
    text short enough for one line, and no change of case. *)
Definition a4Width : Q := 210%Q.
Definition oneLine (style : Renderer.fontStyle) (size : Q) (t : jsstring) (maxWidth : Q)
    : list jsstring := [t].
Definition sameCase (s : jsstring) : jsstring := s.

(** Sixty bullet lines, each short enough for one line of the page. *)
Definition sixtyBullets : jsstring :=
  join App.nl (repeat (js "- item") 60).

End Samples.


(** ** Notions for the rest of the component *)

Module Coverage.
Import JsString GeminiService App Spec Samples.

Definition isSearchTask (t : task) : bool :=
  match t with
  | AwaitSearch _ _ _ => true
  | _ => false
  end.

(** The stages of [reader.onload] that run under the analyzing flag. *)
Definition isPipelineTask (t : task) : bool :=
  match t with
  | AwaitExtract _ _ | AwaitStructure _ _ _ | AwaitAnalyze _ _ _ => true
  | _ => false
  end.

Definition isMailTask (t : task) : bool :=
  match t with
  | AwaitMailContent _ _ _ | AwaitMailTailor _ _ _ _ _ => true
  | _ => false
  end.

(** A loading flag that is set on a running component has a task of its
    kind pending, which will clear it. *)
Definition flagBacked (flag : AppState -> bool) (kind : task -> bool) (w : World) : Prop :=
  idsBelowNext w /\
  (crashed w = false -> flag (app w) = true ->
   exists i t, pending w !! i = Some t /\ kind t = true).

Definition noTaskOf (kind : task -> bool) (w : World) : Prop :=
  forall i t, pending w !! i = Some t -> kind t = false.

(** The sending flag is set exactly while one application email is being
    prepared, and there is never a second one. *)
Definition sendingGuardsMail (w : World) : Prop :=
  idsBelowNext w /\
  if isSendingMail (app w)
  then exists i, (exists t, pending w !! i = Some t /\ isMailTask t = true) /\
                 forall j t, pending w !! j = Some t -> isMailTask t = true -> j = i
  else noTaskOf isMailTask w.

(** No email is being prepared; the flag may still be set, as it is
    between two stages of [handleSendMail]. *)
Definition noMail (w : World) : Prop := idsBelowNext w /\ noTaskOf isMailTask w.

(** The events of the edit modal other than "Refine Search". *)
Definition isDraftEvent (e : event) : bool :=
  match e with
  | UpdateDraft _ | SaveField | UndoClick | CloseEdit | TypeSkillInModal _
  | AddSkillInModal | RemoveSkillInModal _ => true
  | _ => false
  end.

Definition isOpenEdit (e : event) : bool :=
  match e with
  | OpenEdit => true
  | _ => false
  end.

(** The artifact of the kind asked for in the content the gateway sent. *)
Definition artifactOf (type : ArtifactKind) (c : Tailored) : option jsstring :=
  match type with
  | ResumeKind => tailoredResume c
  | CoverLetterKind => coverLetter c
  end.



(** A text file dropped on the upload zone, its bytes not read yet. *)
Definition dropped : World := run asciiLower initialWorld [DropFiles [js "cv.txt"]].

(** The first job card's resume tailoring requested: task 4 is pending. *)
Definition tailoring : World :=
  run asciiLower initialWorld (uploaded ++ [ClickTailor 0 ResumeKind]).

(** The email modal open on the first job with the composition of the mail
    requested: task 4 is pending. *)
Definition composing : World :=
  run asciiLower initialWorld (uploaded ++ [OpenEmail 0; ClickSendMail]).

(** The email modal open on the first job with both tailored attachments
    switched off and the composition of the mail requested. *)
Definition composingPlain : World :=
  run asciiLower initialWorld
    (uploaded ++ [OpenEmail 0; ToggleOption AttachTailoredResume;
                  ToggleOption AttachTailoredCoverLetter; ClickSendMail]).

End Coverage.

(** ** Facts about the string primitives *)

Module JsStringFacts.
Import JsString.

Lemma startsWith_prefix (p s : jsstring) :
  startsWith s p = true <-> exists rest, s = p ++ rest.
Proof.
  revert s. induction p as [|a p IH]; intros s; simpl.
  - split; [intros _; exists s; reflexivity | reflexivity].
  - destruct s as [|c s].
    + split; [discriminate | intros [rest H]; discriminate].
    + rewrite andb_true_iff, N.eqb_eq, IH. split.
      * intros [-> [rest ->]]. exists rest. reflexivity.
      * intros [rest H]. injection H as -> ->. split; [reflexivity | exists rest; reflexivity].
Qed.

Lemma includes_infix (s p : jsstring) :
  includes s p = true <-> exists before after, s = before ++ p ++ after.
Proof.
  induction s as [|c s IH].
  - cbn [includes]. rewrite orb_false_r, startsWith_prefix. split.
    + intros [rest H]. exists [], rest. exact H.
    + intros [before [after H]]. destruct before as [|b before]; [|discriminate].
      exists after. exact H.
  - cbn [includes]. rewrite orb_true_iff, startsWith_prefix, IH. split.
    + intros [[rest H] | [before [after H]]].
      * exists [], rest. exact H.
      * exists (c :: before), after. rewrite H. reflexivity.
    + intros [before [after H]]. destruct before as [|b before].
      * left. exists after. exact H.
      * right. injection H as _ H. exists before, after. exact H.
Qed.

End JsStringFacts.

(** ** Facts about the gateway wrappers *)

Module GeminiServiceFacts.
Import JsString GeminiService App Spec Samples.

Lemma verbatim_filter_sound (toLowerCase : jsstring -> jsstring)
    (resumeText : jsstring) (l : list jsstring) :
  Forall (fun skill => ci_substring toLowerCase skill resumeText)
    (verbatim_filter toLowerCase resumeText l).
Proof.
  unfold verbatim_filter. apply List.Forall_forall. intros skill Hin.
  apply List.filter_In in Hin as [_ Hinc].
  apply JsStringFacts.includes_infix in Hinc. exact Hinc.
Qed.

(** C4.  Whatever the gateway replies, an analysis that [analyzeResume]
    resolves with lists only skills that occur in the resume text it was
    given, compared after lower casing: the filter is applied by the wrapper
    itself to any reply that carries a skills array.  The analysis stage of
    the upload pipeline stores exactly such an analysis of the structured
    text, or leaves the analysis as it was. *)
Theorem analyzeResume_skills_verbatim (toLowerCase : jsstring -> jsstring)
    (resumeText : jsstring) (generateContent : outcome (response parsed_analysis)) :
  (forall r,
     analyzeResume toLowerCase resumeText generateContent = Resolved (WithSkillArray r) ->
     Forall (fun skill => ci_substring toLowerCase skill resumeText) (skills r)) /\
  (forall w id f t,
     crashed w = false -> pending w !! id = Some (AwaitAnalyze resumeText f t) ->
     let w' := step toLowerCase w (AnalyzeSettled id generateContent) in
     match analyzeResume toLowerCase resumeText generateContent with
     | Resolved (WithSkillArray r) =>
         analysis (app w') = Some r /\
         Forall (fun skill => ci_substring toLowerCase skill resumeText) (skills r)
     | _ => analysis (app w') = analysis (app w)
     end).
Proof.
  assert (Hsound : forall r,
            analyzeResume toLowerCase resumeText generateContent
              = Resolved (WithSkillArray r) ->
            Forall (fun skill => ci_substring toLowerCase skill resumeText) (skills r)).
  { unfold analyzeResume. intros r H.
    destruct generateContent as [resp|]; [|discriminate].
    destruct (truthy (text resp)); [|discriminate].
    destruct (parsed resp) as [[r0|]|]; try discriminate.
    injection H as <-. cbn [skills with_skills].
    apply verbatim_filter_sound. }
  split; [exact Hsound|].
  intros w id f t Hrun Hid. cbv zeta. unfold step, dispatch. rewrite Hrun, Hid.
  destruct (analyzeResume toLowerCase resumeText generateContent) as [[r|]|] eqn:E.
  - split; [|apply Hsound; reflexivity].
    unfold rerender. destruct (decide _); reflexivity.
  - unfold rerender. destruct (decide _); reflexivity.
  - unfold rerender. destruct (decide _); reflexivity.
Qed.

Lemma analyzeResume_skills_verbatim_witness :
  Forall (fun skill => ci_substring asciiLower skill (js "I know React and Rocq"))
    [js "react"; js "ROCQ"] /\
  analysis (app (step asciiLower analyzing
                   (AnalyzeSettled 2
                      (reply (WithSkillArray (profile [js "react"; js "Leadership"; js "ROCQ"]))))))
    = Some (profile [js "react"; js "ROCQ"]).
Proof.
  destruct (analyzeResume_skills_verbatim asciiLower (js "I know React and Rocq")
              (reply (WithSkillArray (profile [js "react"; js "Leadership"; js "ROCQ"]))))
    as [Hservice Hstage].
  split.
  - apply (Hservice (profile [js "react"; js "ROCQ"])). vm_compute. reflexivity.
  - specialize (Hstage analyzing 2%nat H24 AllTypes).
    cbv zeta in Hstage.
    change (analyzeResume asciiLower (js "I know React and Rocq")
              (reply (WithSkillArray (profile [js "react"; js "Leadership"; js "ROCQ"]))))
      with (Resolved (WithSkillArray (profile [js "react"; js "ROCQ"]))) in Hstage.
    apply Hstage.
    + reflexivity.
    + vm_compute. reflexivity.
Defined.

End GeminiServiceFacts.

(** ** Facts about the profile and the edit session *)

Module ProfileFacts.
Import JsString GeminiService App Spec Samples.

Lemma set_add_NoDup (s : list jsstring) (x : jsstring) : NoDup s -> NoDup (set_add s x).
Proof.
  intros Hs. unfold set_add. destruct (decide (x ∈ s)) as [|Hx]; [exact Hs|].
  apply NoDup_app. split; [exact Hs|]. split.
  - intros y Hy Hy'. apply list_elem_of_singleton in Hy' as ->. contradiction.
  - apply NoDup_singleton.
Qed.

Lemma fold_set_add_NoDup (l acc : list jsstring) :
  NoDup acc -> NoDup (fold_left set_add l acc).
Proof.
  revert acc. induction l as [|x l IH]; intros acc Hacc; simpl; [exact Hacc|].
  apply IH, set_add_NoDup, Hacc.
Qed.

Lemma newSet_NoDup (l : list jsstring) : NoDup (newSet l).
Proof. apply fold_set_add_NoDup, NoDup_nil_2. Qed.

Lemma without_NoDup (x : jsstring) (l : list jsstring) : NoDup l -> NoDup (without x l).
Proof. intros H. unfold without. apply NoDup_filter, H. Qed.

Lemma liveSkills_handleSearch (a : ResumeAnalysis) (f : TimeFilter) (t : JobType) (w : World) :
  liveSkills (handleSearch a f t w) = liveSkills w.
Proof. reflexivity. Qed.

Lemma handleAddSkill_NoDup_after (w : World) (a : ResumeAnalysis) :
  analysis (app w) = Some a -> trim (newSkill (app w)) <> [] ->
  NoDup (liveSkills (handleAddSkill w)).
Proof.
  intros Ha Hs. unfold handleAddSkill. rewrite Ha.
  destruct (trim (newSkill (app w))) as [|c rest] eqn:E; [contradiction|].
  rewrite liveSkills_handleSearch. unfold liveSkills. cbn.
  apply newSet_NoDup.
Qed.

Lemma callSkill_NoDup (w : World) (c : skillCall) :
  NoDup (liveSkills w) -> NoDup (liveSkills (callSkill w c)).
Proof.
  intros H. destruct c as [s|s]; cbn [callSkill].
  - unfold handleAddSkill.
    destruct (trim (newSkill (app (upd (setNewSkill s) w)))) as [|c rest];
      [exact H|].
    destruct (analysis (app (upd (setNewSkill s) w))) as [a|] eqn:Ea; [|exact H].
    rewrite liveSkills_handleSearch. unfold liveSkills. cbn. apply newSet_NoDup.
  - unfold handleRemoveSkill. unfold liveSkills in H.
    destruct (analysis (app w)) as [a|] eqn:Ea.
    + rewrite liveSkills_handleSearch. unfold liveSkills. cbn.
      apply without_NoDup, H.
    + unfold liveSkills. rewrite Ea. exact H.
Qed.

(** C5, as the code has it.  A skills list without duplicates stays
    without duplicates under any sequence of [addSkill] and [removeSkill]
    calls, and an [addSkill] that takes effect leaves no duplicates whatever
    the list was before. *)
Theorem skills_unique_preserved (w : World) (cs : list skillCall) :
  (NoDup (liveSkills w) -> NoDup (liveSkills (callSkills w cs))) /\
  (forall s, is_Some (analysis (app w)) -> trim s <> [] ->
     NoDup (liveSkills (callSkill w (AddSkill s)))).
Proof.
  split.
  - revert w. induction cs as [|c cs IH]; intros w H; [exact H|].
    cbn [callSkills fold_left]. apply IH, callSkill_NoDup, H.
  - intros s [a Ha] Hs. cbn [callSkill].
    apply (handleAddSkill_NoDup_after _ a); [exact Ha | exact Hs].
Qed.

Lemma skills_unique_preserved_witness :
  NoDup (liveSkills (callSkills board
           [AddSkill (js " React "); RemoveSkillCall (js "Rocq"); AddSkill (js "Lean")])) /\
  NoDup (liveSkills (callSkill board (AddSkill (js "React")))).
Proof.
  split.
  - apply (proj1 (skills_unique_preserved board _)).
    apply (bool_decide_unpack _). vm_compute. exact I.
  - apply (proj2 (skills_unique_preserved board [])).
    + vm_compute. eexists. reflexivity.
    + vm_compute. discriminate.
Defined.

(** C5, as stated, fails on a fresh analysis: the wrapper filters the
    skills of the reply and does not remove duplicates, the pipeline stores
    the list as it is, and a removal of another skill keeps the duplicate. *)
Lemma fresh_analysis_keeps_duplicates :
  let fresh := profile [js "React"; js "Rocq"; js "React"] in
  analyzeResume asciiLower resumeBytes (reply (WithSkillArray fresh))
    = Resolved (WithSkillArray fresh) /\
  liveSkills duplicated = [js "React"; js "Rocq"; js "React"] /\
  ~ NoDup (liveSkills duplicated) /\
  liveSkills (callSkills duplicated [RemoveSkillCall (js "Rocq")])
    = [js "React"; js "React"] /\
  ~ NoDup (liveSkills (callSkills duplicated [RemoveSkillCall (js "Rocq")])).
Proof.
  cbv zeta. split; [vm_compute; reflexivity|]. split; [vm_compute; reflexivity|].
  split; [|split; [vm_compute; reflexivity|]].
  - apply (bool_decide_unpack _). vm_compute. exact I.
  - apply (bool_decide_unpack _). vm_compute. exact I.
Qed.

(** C8.  [undo] with a history of one entry changes nothing; with a
    history of [N > 1] entries it makes entry [N - 1] (counted from one) the
    live draft and keeps the first [N - 1] entries as the history. *)
Theorem undoField_bounds (w : World) :
  (length (history (app w)) = 1%nat -> undoField w = w) /\
  (forall N : nat, length (history (app w)) = N -> (1 < N)%nat ->
     let w' := undoField w in
     is_Some (editDraft (app w')) /\
     editDraft (app w') = history (app w) !! (N - 2)%nat /\
     history (app w') = take (N - 1) (history (app w)) /\
     length (history (app w')) = (N - 1)%nat /\
     editDraft (app w') = last (history (app w'))).
Proof.
  split.
  - intros H. unfold undoField. rewrite H. reflexivity.
  - intros N HN Hlt w'. subst w'. unfold undoField. rewrite HN.
    destruct (Nat.ltb_spec 1 N) as [_|Hge]; [|lia].
    cbn. unfold dropLast. rewrite HN.
    assert (Hlook : is_Some (history (app w) !! (N - 2)%nat))
      by (apply lookup_lt_is_Some; lia).
    split; [exact Hlook|]. split; [reflexivity|]. split; [reflexivity|].
    split; [rewrite length_take; lia|].
    rewrite last_lookup, length_take, lookup_take_lt by lia.
    f_equal. lia.
Qed.

Lemma undoField_bounds_witness :
  let one := upd (setHistory [profile []]) (upd (setEditDraft (Some (profile [js "x"]))) board) in
  let three :=
    upd (setHistory [profile []; profile [js "a"]; profile [js "a"; js "b"]]) one in
  undoField one = one /\
  editDraft (app (undoField three)) = Some (profile [js "a"]) /\
  history (app (undoField three)) = [profile []; profile [js "a"]].
Proof.
  intros one three. split.
  - apply (proj1 (undoField_bounds one)). reflexivity.
  - pose proof (proj2 (undoField_bounds three) 3%nat eq_refl ltac:(lia)) as H.
    cbv zeta in H. destruct H as (_ & Hd & Hh & _ & _).
    split; [rewrite Hd; reflexivity | rewrite Hh; reflexivity].
Defined.

(** C10.  "Upload New" empties the analysis, the job list and the resume
    text and leaves every other cell of the state, and everything outside
    the state, as it was. *)
Theorem uploadNew_frame (w : World) :
  let s := app w in
  let s' := app (uploadNew w) in
  (analysis s' = None /\ jobs s' = [] /\ resumeText s' = []) /\
  (timeFilter s' = timeFilter s /\ jobType s' = jobType s /\
   emailOptions s' = emailOptions s /\ expandedJobs s' = expandedJobs s) /\
  (isAnalyzing s' = isAnalyzing s /\ isSearching s' = isSearching s /\
   isGenerating s' = isGenerating s /\ newSkill s' = newSkill s /\
   newSkillInModal s' = newSkillInModal s /\ isEditModalOpen s' = isEditModalOpen s /\
   editDraft s' = editDraft s /\ history s' = history s /\
   emailModalJob s' = emailModalJob s /\ isSendingMail s' = isSendingMail s /\
   error s' = error s) /\
  (pending (uploadNew w) = pending w /\ effects (uploadNew w) = effects w /\
   dropJobType (uploadNew w) = dropJobType w).
Proof. cbv zeta. repeat split. Qed.

End ProfileFacts.

(** ** Facts about tailoring *)

Module TailoringFacts.
Import JsString GeminiService App Spec Samples.

Lemma runs_head (p : N -> bool) (c : N) (s : jsstring) :
  exists r rest, runs p (c :: s) = (p c, c :: r) :: rest.
Proof.
  cbn [runs]. destruct (runs p s) as [|[b r] rest]; [eexists _, _; reflexivity|].
  destruct (Bool.eqb b (p c)) eqn:E.
  - apply Bool.eqb_prop in E as ->. eexists _, _; reflexivity.
  - eexists _, _; reflexivity.
Qed.

Lemma collapse_runs_cons (p : N -> bool) (sep c : N) (s : jsstring) :
  collapse_runs p sep (c :: s) =
    if p c then
      match s with
      | c' :: _ => if p c' then collapse_runs p sep s else sep :: collapse_runs p sep s
      | [] => [sep]
      end
    else c :: collapse_runs p sep s.
Proof.
  unfold collapse_runs. destruct s as [|c' s'].
  - cbn. destruct (p c); reflexivity.
  - destruct (runs_head p c' s') as (r & rest & Hr).
    cbn [runs] in *. rewrite Hr.
    destruct (p c) eqn:Ec, (p c') eqn:Ec'; cbn; rewrite ?Ec; reflexivity.
Qed.

Lemma replace_ws_from_collapse (sep : N) (s : jsstring) :
  replace_ws_from [sep] false s = collapse_runs isWhiteSpace sep s /\
  match s with
  | c :: _ =>
      (if isWhiteSpace c then sep :: replace_ws_from [sep] true s
       else replace_ws_from [sep] true s) = collapse_runs isWhiteSpace sep s
  | [] => True
  end.
Proof.
  induction s as [|c s [IH1 IH2]]; [split; [reflexivity | exact I]|].
  rewrite collapse_runs_cons. cbn [replace_ws_from].
  destruct (isWhiteSpace c) eqn:Ec; cbn [app].
  - assert (H : sep :: replace_ws_from [sep] true s =
                match s with
                | c' :: _ =>
                    if isWhiteSpace c' then collapse_runs isWhiteSpace sep s
                    else sep :: collapse_runs isWhiteSpace sep s
                | [] => [sep]
                end).
    { destruct s as [|c' s']; [reflexivity|].
      destruct (isWhiteSpace c') eqn:Ec'; [exact IH2 | f_equal; exact IH2]. }
    split; exact H.
  - rewrite IH1. split; reflexivity.
Qed.

Lemma replace_ws_runs_collapse (s : jsstring) :
  replace_ws_runs (js "_") s = collapse_runs isWhiteSpace 95 s.
Proof. apply (replace_ws_from_collapse 95 s). Qed.

Lemma tailoredFilename_collapse (job : Job) (type : ArtifactKind) :
  tailoredFilename job type =
    artifactLabel type ++ collapse_runs isWhiteSpace 95 (company job) ++ js ".pdf".
Proof.
  unfold tailoredFilename. rewrite replace_ws_runs_collapse. destruct type; reflexivity.
Qed.

(** C9, as the code has it.  A successful generation started from a job
    card exports the artifact asked for under the artifact label followed by
    the company name with every run of white space collapsed to one
    underscore, and sets no error. *)
Theorem tailored_filename_direct (job : Job) (type : ArtifactKind) (c : Tailored)
    (content : jsstring) (w : World) :
  match type with
  | ResumeKind => tailoredResume c
  | CoverLetterKind => coverLetter c
  end = Some content ->
  let w' := handleGenerateTailored_settled job type (Resolved c) w in
  effects w' =
    effects w ++
      [DownloadAsPDF content
         (artifactLabel type ++ collapse_runs isWhiteSpace 95 (company job) ++ js ".pdf")]
  /\ error (app w') = error (app w).
Proof.
  intros Hc. cbv zeta. unfold handleGenerateTailored_settled.
  rewrite <- tailoredFilename_collapse.
  destruct type; rewrite Hc; cbn; split; reflexivity.
Qed.

Lemma tailored_filename_direct_witness :
  effects (handleGenerateTailored_settled acme CoverLetterKind
             (Resolved {| tailoredResume := Some (js "CV"); coverLetter := Some (js "Dear") |})
             board)
  = effects board ++ [DownloadAsPDF (js "Dear") (js "Cover_Letter_Acme_&_Sons_Ltd.pdf")].
Proof.
  apply (tailored_filename_direct acme CoverLetterKind
           {| tailoredResume := Some (js "CV"); coverLetter := Some (js "Dear") |}
           (js "Dear") board).
  reflexivity.
Defined.

(** C9, as stated, fails on both paths: the company name "Acme & Sons  Ltd"
    gives one file name from a job card, another from the application email,
    and neither is the label with the runs of non-alphanumeric characters
    collapsed. *)
Lemma filename_keeps_punctuation :
  let both := {| tailoredResume := Some (js "CV"); coverLetter := Some (js "Dear") |} in
  let options :=
    {| attachTailoredResume := true; attachTailoredCoverLetter := false;
       generateMailContent := false; attachUploadedResume := false |} in
  spec_filename ResumeKind (company acme) = js "Tailored_Resume_Acme_Sons_Ltd.pdf" /\
  effects (handleGenerateTailored_settled acme ResumeKind (Resolved both) initialWorld)
    = [DownloadAsPDF (js "CV") (js "Tailored_Resume_Acme_&_Sons_Ltd.pdf")] /\
  (exists mail,
     effects (handleSendMail_tailor_settled (js "cv") acme options None None
                (Resolved both) initialWorld)
       = [DownloadAsPDF (js "CV") (js "Tailored_Resume_Acme & Sons  Ltd.pdf"); mail]) /\
  js "Tailored_Resume_Acme_&_Sons_Ltd.pdf" <> spec_filename ResumeKind (company acme) /\
  js "Tailored_Resume_Acme & Sons  Ltd.pdf" <> spec_filename ResumeKind (company acme).
Proof.
  cbv zeta. split; [vm_compute; reflexivity|]. split; [vm_compute; reflexivity|].
  split; [eexists; vm_compute; reflexivity|].
  split; vm_compute; discriminate.
Qed.

End TailoringFacts.

(** ** The generation key and the job cards *)

Module ExclusionFacts.
Import JsString GeminiService App Spec Samples.

Lemma ids_spawn (t : task) (w : World) : idsBelowNext w -> idsBelowNext (spawn t w).
Proof.
  intros H i t' Hi. cbn in *. destruct (decide (nextId w = i)) as [<-|Hne].
  - lia.
  - rewrite lookup_insert_ne in Hi by exact Hne. apply H in Hi. lia.
Qed.

Lemma ids_finish (id : nat) (w : World) : idsBelowNext w -> idsBelowNext (finish id w).
Proof.
  intros H i t Hi. cbn in *. apply lookup_delete_Some in Hi as [_ Hi]. exact (H i t Hi).
Qed.

Lemma spawn_fresh (t : task) (w : World) : idsBelowNext w -> pending w !! nextId w = None.
Proof.
  intros H. destruct (pending w !! nextId w) as [t'|] eqn:E; [|reflexivity].
  apply H in E. lia.
Qed.

Lemma guard_upd (f : AppState -> AppState) (w : World) :
  isGenerating (f (app w)) = isGenerating (app w) ->
  keyGuardsCards w -> keyGuardsCards (upd f w).
Proof.
  intros Hf [Hids Hk]. split; [exact Hids|]. cbn [app upd]. rewrite Hf. exact Hk.
Qed.

Lemma guard_emit (e : effect) (w : World) : keyGuardsCards w -> keyGuardsCards (emit e w).
Proof. exact (fun H => H). Qed.

Lemma guard_crash (w : World) : keyGuardsCards w -> keyGuardsCards (crash w).
Proof. exact (fun H => H). Qed.

Lemma guard_spawn (t : task) (w : World) :
  isTailorTask t = false -> keyGuardsCards w -> keyGuardsCards (spawn t w).
Proof.
  intros Ht [Hids Hk]. split; [apply ids_spawn, Hids|].
  pose proof (spawn_fresh t w Hids) as Hfresh.
  unfold noCardGeneration in *. cbn [app spawn pending]. destruct (isGenerating (app w)).
  - destruct Hk as (i & (ti & Hi & Hti) & Huniq). exists i. split.
    + exists ti. split; [|exact Hti].
      rewrite lookup_insert_ne; [exact Hi | congruence].
    + intros j tj Hj Htj. destruct (decide (nextId w = j)) as [<-|Hne].
      * rewrite lookup_insert_eq in Hj. congruence.
      * rewrite lookup_insert_ne in Hj by exact Hne. exact (Huniq j tj Hj Htj).
  - intros i ti Hi. destruct (decide (nextId w = i)) as [<-|Hne].
    + rewrite lookup_insert_eq in Hi. congruence.
    + rewrite lookup_insert_ne in Hi by exact Hne. exact (Hk i ti Hi).
Qed.

Lemma guard_finish (id : nat) (t : task) (w : World) :
  pending w !! id = Some t -> isTailorTask t = false ->
  keyGuardsCards w -> keyGuardsCards (finish id w).
Proof.
  intros Hid Ht [Hids Hk]. split; [apply ids_finish, Hids|].
  unfold noCardGeneration in *. cbn [app finish pending]. destruct (isGenerating (app w)).
  - destruct Hk as (i & (ti & Hi & Hti) & Huniq). exists i. split.
    + exists ti. split; [|exact Hti].
      rewrite lookup_delete_ne; [exact Hi | congruence].
    + intros j tj Hj Htj. apply lookup_delete_Some in Hj as [_ Hj].
      exact (Huniq j tj Hj Htj).
  - intros i ti Hi. apply lookup_delete_Some in Hi as [_ Hi]. exact (Hk i ti Hi).
Qed.

Lemma guard_generate (job : Job) (type : ArtifactKind) (w : World) :
  isGenerating (app w) = None ->
  keyGuardsCards w -> keyGuardsCards (handleGenerateTailored job type w).
Proof.
  intros Hnone [Hids Hk]. rewrite Hnone in Hk.
  split; [apply ids_spawn, Hids|].
  pose proof (spawn_fresh (AwaitTailor [] job type) w Hids) as Hfresh.
  cbn. exists (nextId w). split.
  - eexists. rewrite lookup_insert_eq. split; reflexivity.
  - intros j tj Hj Htj. destruct (decide (nextId w = j)) as [<-|Hne]; [reflexivity|].
    rewrite lookup_insert_ne in Hj by exact Hne. apply Hk in Hj. congruence.
Qed.

(** Taking the pending card generation away leaves none. *)
Lemma finish_card_generation (id : nat) (t : task) (w : World) :
  pending w !! id = Some t -> isTailorTask t = true ->
  keyGuardsCards w -> idsBelowNext (finish id w) /\ noCardGeneration (finish id w).
Proof.
  intros Hid Ht [Hids Hk]. split; [apply ids_finish, Hids|].
  intros i ti Hi. cbn in Hi. apply lookup_delete_Some in Hi as [Hne Hi].
  destruct (isGenerating (app w)).
  - destruct Hk as (k & _ & Huniq).
    destruct (isTailorTask ti) eqn:Hti; [|reflexivity].
    pose proof (Huniq i ti Hi Hti). pose proof (Huniq id t Hid Ht). congruence.
  - exact (Hk i ti Hi).
Qed.

Lemma guard_released (job : Job) (type : ArtifactKind) (o : outcome Tailored) (w : World) :
  idsBelowNext w -> noCardGeneration w ->
  keyGuardsCards (handleGenerateTailored_settled job type o w).
Proof.
  intros Hids Hno. unfold handleGenerateTailored_settled, download.
  destruct o as [c|]; [destruct type; [destruct (tailoredResume c) | destruct (coverLetter c)]|];
    (split; [exact Hids | exact Hno]).
Qed.

(** One layer of a handler taken off a goal [keyGuardsCards _]. *)
Ltac guard_layer :=
  lazymatch goal with
  | |- keyGuardsCards (upd _ _) => apply guard_upd; [reflexivity|]
  | |- keyGuardsCards (emit _ _) => apply guard_emit
  | |- keyGuardsCards (crash _) => apply guard_crash
  | |- keyGuardsCards (spawn _ _) => apply guard_spawn; [reflexivity|]
  | |- keyGuardsCards (finish _ _) => eapply guard_finish; [eassumption | reflexivity |]
  | |- keyGuardsCards (handleGenerateTailored _ _ _) => apply guard_generate; [assumption|]
  | |- keyGuardsCards (if ?b then _ else _) => destruct b eqn:?
  | |- keyGuardsCards (match ?x with _ => _ end) => destruct x eqn:?
  | |- keyGuardsCards (let '(_, _) := ?x in _) => destruct x eqn:?
  end.

Ltac guard_auto := cbv zeta; repeat (guard_layer; cbv zeta); try assumption.

Lemma guard_handleSearch (a : ResumeAnalysis) (f : TimeFilter) (t : JobType) (w : World) :
  keyGuardsCards w -> keyGuardsCards (handleSearch a f t w).
Proof. intros H. unfold handleSearch. guard_auto. Qed.

Lemma guard_attach (enabled : bool) (note : jsstring) (content : option jsstring)
    (filename : jsstring) (a : attempt) :
  match a with Done _ w | Threw w => keyGuardsCards w end ->
  match attach enabled note content filename a with
  | Done _ w | Threw w => keyGuardsCards w
  end.
Proof.
  destruct a as [info w|w]; intros H; cbn; [|exact H].
  destruct enabled; [|exact H]. destruct content; cbn; exact H.
Qed.

Lemma guard_mail_attach (text : jsstring) (job : Job) (options : EmailOptions)
    (subject body : option jsstring) (tailored : option Tailored) (w : World) :
  keyGuardsCards w ->
  keyGuardsCards (handleSendMail_attach text job options subject body tailored w).
Proof.
  intros H. unfold handleSendMail_attach. cbv zeta.
  match goal with
  | |- keyGuardsCards (match ?a with _ => _ end) =>
      assert (Ha : match a with Done _ w' | Threw w' => keyGuardsCards w' end)
  end.
  { apply guard_attach. destruct tailored; [apply guard_attach, guard_attach|]; exact H. }
  match goal with
  | |- keyGuardsCards (match ?a with _ => _ end) => destruct a
  end; unfold handleSendMail_failed; guard_auto.
Qed.

Lemma guard_mail_composed (text : jsstring) (job : Job) (options : EmailOptions)
    (subject body : option jsstring) (w : World) :
  keyGuardsCards w ->
  keyGuardsCards (handleSendMail_composed text job options subject body w).
Proof.
  intros H. unfold handleSendMail_composed.
  destruct (_ || _); [guard_auto | apply guard_mail_attach, H].
Qed.

Section Reachable.
Variable toLowerCase : jsstring -> jsstring.

Lemma guard_dispatch (e : event) (w : World) :
  keyGuardsCards w -> keyGuardsCards (dispatch toLowerCase e w).
Proof.
  intros H. destruct e; unfold dispatch; cbv zeta.
  - unfold onDrop. guard_auto.
  - unfold onDrop_loaded, onDrop_extracted, onDrop_failed. guard_auto.
  - unfold onDrop_extract_settled, onDrop_extracted, onDrop_failed. guard_auto.
  - unfold onDrop_structure_settled, onDrop_failed. guard_auto.
  - unfold onDrop_analyze_settled, onDrop_failed.
    guard_auto; apply guard_handleSearch; guard_auto.
  - unfold handleSearch_settled. guard_auto.
  - destruct (pending w !! id) as [t|] eqn:Hid; [|exact H].
    destruct t; try exact H.
    + destruct (finish_card_generation id _ w Hid eq_refl H) as [Hids Hno].
      apply guard_released; assumption.
    + unfold handleSendMail_tailor_settled, handleSendMail_failed.
      destruct (generateTailoredContent o);
        [apply guard_mail_attach | idtac]; guard_auto.
  - unfold handleSendMail_content_settled, handleSendMail_failed.
    destruct (pending w !! id) as [t|] eqn:Hid; [|exact H].
    destruct t; try exact H.
    destruct (generateEmailContent o); [apply guard_mail_composed|]; guard_auto.
  - unfold changeFilter. guard_auto; apply guard_handleSearch; guard_auto.
  - unfold changeJobType. guard_auto; apply guard_handleSearch; guard_auto.
  - unfold toggleJobExpansion. guard_auto.
  - guard_auto.
  - unfold handleAddSkill. guard_auto; apply guard_handleSearch; guard_auto.
  - unfold handleRemoveSkill. guard_auto; apply guard_handleSearch; guard_auto.
  - unfold openEditModal. guard_auto.
  - unfold handleUpdateDraft. guard_auto.
  - unfold saveField. guard_auto.
  - unfold undoField. guard_auto.
  - unfold handleRefineSearch. guard_auto; apply guard_handleSearch; guard_auto.
  - guard_auto.
  - guard_auto.
  - unfold addSkillInModal, handleUpdateDraft. guard_auto.
  - unfold removeSkillInModal, handleUpdateDraft. guard_auto.
  - unfold clickTailor. guard_auto.
  - guard_auto.
  - guard_auto.
  - guard_auto.
  - unfold clickSendMail, handleSendMail. guard_auto.
    apply guard_mail_composed. guard_auto.
  - unfold uploadNew. guard_auto.
Qed.

Lemma guard_step (e : event) (w : World) :
  keyGuardsCards w -> keyGuardsCards (step toLowerCase w e).
Proof.
  intros H. unfold step. destruct (crashed w); [exact H|].
  unfold rerender. destruct (decide _); apply guard_dispatch, H.
Qed.

Lemma guard_run (es : list event) (w : World) :
  keyGuardsCards w -> keyGuardsCards (run toLowerCase w es).
Proof.
  revert w. induction es as [|e es IH]; intros w H; [exact H|].
  cbn [run fold_left]. apply IH, guard_step, H.
Qed.

Lemma guard_initial : keyGuardsCards initialWorld.
Proof.
  split.
  - intros i t Hi. cbn in Hi. rewrite lookup_empty in Hi. discriminate.
  - cbn. intros i t Hi. cbn in Hi. rewrite lookup_empty in Hi. discriminate.
Qed.

End Reachable.

(** C1, as the code has it.  In every state the component can reach, at
    most one generation started from a job card is pending and the
    generation key is set exactly then; while it is set a click on a
    tailoring control of any job and kind changes nothing, and once the
    pending generation settles, by success or by failure, the key is empty
    and the next click is taken: it sets the key and starts its request. *)
Theorem card_generations_exclusive (toLowerCase : jsstring -> jsstring) (es : list event) :
  let w := run toLowerCase initialWorld es in
  (forall i j ti tj,
     pending w !! i = Some ti -> pending w !! j = Some tj ->
     isTailorTask ti = true -> isTailorTask tj = true -> i = j) /\
  (is_Some (isGenerating (app w)) <->
     exists i t, pending w !! i = Some t /\ isTailorTask t = true) /\
  (forall job type, is_Some (isGenerating (app w)) -> clickTailor job type w = w) /\
  (forall id text job type o,
     crashed w = false -> pending w !! id = Some (AwaitTailor text job type) ->
     let w' := step toLowerCase w (TailorSettled id o) in
     isGenerating (app w') = None /\
     forall job' type',
       let w'' := clickTailor job' type' w' in
       isGenerating (app w'') = Some (generationKey job' type') /\
       pending w'' !! nextId w' = Some (AwaitTailor (resumeText (app w')) job' type')).
Proof.
  intros w. pose proof (guard_run toLowerCase es _ guard_initial) as [Hids Hk].
  fold w in Hids, Hk. split; [|split; [split|split]].
  - intros i j ti tj Hi Hj Hti Htj. destruct (isGenerating (app w)).
    + destruct Hk as (k & _ & Huniq).
      rewrite (Huniq i ti Hi Hti), (Huniq j tj Hj Htj). reflexivity.
    + apply Hk in Hi. congruence.
  - intros [key Hkey]. rewrite Hkey in Hk. destruct Hk as (i & (t & Hi & Ht) & _).
    exists i, t. split; assumption.
  - intros (i & t & Hi & Ht). destruct (isGenerating (app w)); [eexists; reflexivity|].
    apply Hk in Hi. congruence.
  - intros job type [key Hkey]. unfold clickTailor. rewrite Hkey. reflexivity.
  - intros id text job type o Hrun Hid w'.
    assert (Hnone : isGenerating (app w') = None).
    { subst w'. unfold step, rerender, dispatch. rewrite Hrun, Hid.
      destruct (decide _); unfold handleGenerateTailored_settled; reflexivity. }
    split; [exact Hnone|]. intros job' type' w''. subst w''.
    unfold clickTailor. rewrite Hnone. split; [reflexivity|].
    cbn. apply lookup_insert_eq.
Qed.

Lemma card_generations_exclusive_witness :
  let w := run asciiLower initialWorld (uploaded ++ [ClickTailor 1 ResumeKind]) in
  let w' := step asciiLower w (TailorSettled 4 Rejected) in
  clickTailor acme CoverLetterKind w = w /\
  isGenerating (app w') = None /\
  isGenerating (app (clickTailor acme CoverLetterKind w'))
    = Some (generationKey acme CoverLetterKind).
Proof.
  intros w w'.
  destruct (card_generations_exclusive asciiLower (uploaded ++ [ClickTailor 1 ResumeKind]))
    as (_ & _ & Hbusy & Hfree).
  fold w in Hbusy, Hfree. split.
  - apply Hbusy. vm_compute. eexists. reflexivity.
  - destruct (Hfree 4%nat (js "JANE DOE  React and Rocq, 2020") globex ResumeKind Rejected)
      as [Hnone Hnext].
    + vm_compute. reflexivity.
    + vm_compute. reflexivity.
    + split; [exact Hnone | exact (proj1 (Hnext acme CoverLetterKind))].
Defined.

(** C1, as stated, fails for the application email: with a generation from
    a job card pending, sending the email starts a second tailoring request
    at once, so two are in flight, and the first is still pending. *)
Lemma email_tailoring_not_excluded :
  let w :=
    run asciiLower initialWorld
      (uploaded ++ [ClickTailor 1 ResumeKind; OpenEmail 0; ToggleOption GenerateMailContent]) in
  let w' := step asciiLower w ClickSendMail in
  isGenerating (app w) = Some (generationKey globex ResumeKind) /\
  map snd (tailoringInFlight w)
    = [AwaitTailor resumeBytes globex ResumeKind] /\
  length (tailoringInFlight w') = 2%nat /\
  pending w' !! 5%nat
    = Some (AwaitMailTailor resumeBytes acme
              {| attachTailoredResume := true; attachTailoredCoverLetter := true;
                 generateMailContent := false; attachUploadedResume := false |}
              (Some (js "Application for Engineer at Acme & Sons  Ltd"))
              (Some (js "Hi Acme & Sons  Ltd Team," ++ nl ++ nl
                       ++ js "I am interested in the Engineer position."))) /\
  w' <> w /\ error (app w') = None.
Proof.
  cbv zeta. repeat split; try (vm_compute; reflexivity).
  intros H. apply (f_equal nextId) in H. vm_compute in H. discriminate.
Qed.

End ExclusionFacts.

(** ** Facts about the job search *)

Module SearchFacts.
Import JsString GeminiService App Spec Samples.

Lemma crashed_handleSearch_settled (o : outcome (list Job)) (w : World) :
  crashed (handleSearch_settled o w) = crashed w.
Proof. destruct o; reflexivity. Qed.

Lemma timeFilter_handleSearch_settled (o : outcome (list Job)) (w : World) :
  timeFilter (app (handleSearch_settled o w)) = timeFilter (app w).
Proof. destruct o; reflexivity. Qed.

Lemma pending_handleSearch_settled (o : outcome (list Job)) (w : World) :
  pending (handleSearch_settled o w) = pending w.
Proof. destruct o; reflexivity. Qed.

(** A settlement of a pending search runs the rest of [handleSearch] on the
    outcome of [searchJobs]. *)
Lemma step_search_settled (toLowerCase : jsstring -> jsstring) (w : World) (id : nat)
    (a : ResumeAnalysis) (f : TimeFilter) (t : JobType)
    (o : outcome (response (list Job))) :
  crashed w = false -> pending w !! id = Some (AwaitSearch a f t) ->
  step toLowerCase w (SearchSettled id o) = handleSearch_settled (searchJobs o) (finish id w).
Proof.
  intros Hrun Hid. unfold step, dispatch. rewrite Hrun, Hid. unfold rerender.
  destruct (decide _) as [|Hne]; [reflexivity|].
  exfalso. apply Hne. rewrite timeFilter_handleSearch_settled. reflexivity.
Qed.

(** C2, as the code has it.  With two searches pending, A issued before B,
    and B settling first, the job list is the result of A whenever A
    resolves: the reply that arrives last is the one shown.  Only when A is
    rejected does the list of B, or the list from before, remain. *)
Theorem search_last_resolved_wins (toLowerCase : jsstring -> jsstring) (w : World)
    (idA idB : nat) (aA aB : ResumeAnalysis) (fA fB : TimeFilter) (tA tB : JobType)
    (oA oB : outcome (response (list Job))) :
  crashed w = false ->
  pending w !! idA = Some (AwaitSearch aA fA tA) ->
  pending w !! idB = Some (AwaitSearch aB fB tB) ->
  (idA < idB)%nat ->
  let final := run toLowerCase w [SearchSettled idB oB; SearchSettled idA oA] in
  jobs (app final) =
    match searchJobs oA with
    | Resolved resultA => resultA
    | Rejected =>
        match searchJobs oB with
        | Resolved resultB => resultB
        | Rejected => jobs (app w)
        end
    end.
Proof.
  intros Hrun HA HB Hlt. cbv zeta. cbn [run fold_left].
  rewrite (step_search_settled toLowerCase w idB aB fB tB oB Hrun HB).
  rewrite (step_search_settled toLowerCase _ idA aA fA tA oA).
  - destruct (searchJobs oA); [reflexivity|].
    destruct (searchJobs oB); reflexivity.
  - rewrite crashed_handleSearch_settled. exact Hrun.
  - rewrite pending_handleSearch_settled. cbn [pending finish].
    rewrite lookup_delete_ne by lia. exact HA.
Qed.

Lemma search_last_resolved_wins_witness :
  jobs (app (run asciiLower twoSearches
               [SearchSettled 5 (reply [globex]); SearchSettled 4 (reply [acme])]))
  = [acme].
Proof.
  apply (search_last_resolved_wins asciiLower twoSearches 4 5
           (profile [js "React"; js "Rocq"]) (profile [js "React"; js "Rocq"])
           H48 H72 AllTypes AllTypes (reply [acme]) (reply [globex])).
  - reflexivity.
  - vm_compute. reflexivity.
  - vm_compute. reflexivity.
  - lia.
Defined.

(** C2, as stated, fails: search A (last two days) is issued before B (last
    three days), B resolves with one job, A resolves after it with another,
    and the final list is that of A while the filter shown is that of B. *)
Lemma stale_search_overwrites :
  let final :=
    run asciiLower initialWorld
      (uploaded ++ [ChangeFilter H48; ChangeFilter H72;
                    SearchSettled 5 (reply [globex]); SearchSettled 4 (reply [acme])]) in
  pending twoSearches !! 4%nat
    = Some (AwaitSearch (profile [js "React"; js "Rocq"]) H48 AllTypes) /\
  pending twoSearches !! 5%nat
    = Some (AwaitSearch (profile [js "React"; js "Rocq"]) H72 AllTypes) /\
  timeFilter (app final) = H72 /\
  jobs (app final) = [acme] /\
  jobs (app final) <> [globex].
Proof.
  cbv zeta. repeat split; try (vm_compute; reflexivity).
  vm_compute. discriminate.
Qed.

(** C6, as the code has it.  When the gateway call of a pending search
    fails, the rest of [handleSearch] sets the error message and leaves the
    job list as it was; a reply whose text cannot be parsed is no failure to
    [handleSearch]: [searchJobs] answers it with the empty list, which
    replaces the job list, and the error is not touched. *)
Theorem search_rejection_keeps_jobs (toLowerCase : jsstring -> jsstring) (w : World)
    (id : nat) (a : ResumeAnalysis) (f : TimeFilter) (t : JobType) :
  crashed w = false -> pending w !! id = Some (AwaitSearch a f t) ->
  (let w' := step toLowerCase w (SearchSettled id Rejected) in
   error (app w') = Some searchFailed /\ jobs (app w') = jobs (app w) /\
   isSearching (app w') = false) /\
  (forall reply,
     truthy (text reply) = true -> parsed reply = None ->
     let w' := step toLowerCase w (SearchSettled id (Resolved reply)) in
     jobs (app w') = [] /\ error (app w') = error (app w) /\
     isSearching (app w') = false).
Proof.
  intros Hrun Hid. split.
  - cbv zeta. rewrite (step_search_settled toLowerCase w id a f t _ Hrun Hid).
    repeat split.
  - intros reply Htext Hparsed. cbv zeta.
    rewrite (step_search_settled toLowerCase w id a f t _ Hrun Hid).
    unfold searchJobs. rewrite Htext, Hparsed. repeat split.
Qed.

Lemma search_rejection_keeps_jobs_witness :
  let w' := step asciiLower oneSearch (SearchSettled 4 Rejected) in
  error (app w') = Some searchFailed /\ jobs (app w') = [acme; globex].
Proof.
  destruct (search_rejection_keeps_jobs asciiLower oneSearch 4
              (profile [js "React"; js "Rocq"]) H48 AllTypes) as [(He & Hj & _) _].
  - reflexivity.
  - vm_compute. reflexivity.
  - split; [exact He | rewrite Hj; reflexivity].
Defined.

(** C6, as stated, fails for a search whose reply cannot be parsed: the two
    jobs on screen are replaced by the empty list and no error is set. *)
Lemma garbled_search_clears_jobs :
  let w' := step asciiLower oneSearch (SearchSettled 4 garbled) in
  jobs (app oneSearch) = [acme; globex] /\
  searchJobs (@garbled (list Job)) = Resolved [] /\
  jobs (app w') = [] /\ error (app w') = None.
Proof. cbv zeta. repeat split; vm_compute; reflexivity. Qed.

End SearchFacts.

(** ** Facts about the upload pipeline *)

Module UploadFacts.
Import JsString GeminiService App Spec Samples.

Lemma orElse_falsy (t : option jsstring) (d : jsstring) : truthy t = false -> orElse t d = d.
Proof. destruct t as [[|c s]|]; [reflexivity | discriminate | reflexivity]. Qed.

Lemma step_structure_settled (toLowerCase : jsstring -> jsstring) (w : World) (id : nat)
    (rawText : jsstring) (f : TimeFilter) (t : JobType) (o : outcome (response unit)) :
  crashed w = false -> pending w !! id = Some (AwaitStructure rawText f t) ->
  step toLowerCase w (StructureSettled id o)
    = onDrop_structure_settled f t (structureResume rawText o) (finish id w).
Proof.
  intros Hrun Hid. unfold step, dispatch. rewrite Hrun, Hid. unfold rerender.
  destruct (decide _) as [|Hne]; [reflexivity|].
  exfalso. apply Hne. destruct (structureResume rawText o); reflexivity.
Qed.

(** C7, as the code has it.  When the structuring reply carries no text,
    the raw text becomes the resume text unchanged, the analysis of that
    text is requested and no error is set; when the structuring call itself
    fails, the pipeline sets its error message and stops: the resume text is
    not set and no analysis is requested. *)
Theorem structuring_fallback (toLowerCase : jsstring -> jsstring) (w : World) (id : nat)
    (rawText : jsstring) (f : TimeFilter) (t : JobType) :
  crashed w = false -> pending w !! id = Some (AwaitStructure rawText f t) ->
  (forall reply,
     truthy (text reply) = false ->
     let w' := step toLowerCase w (StructureSettled id (Resolved reply)) in
     resumeText (app w') = rawText /\
     pending w' = <[nextId w := AwaitAnalyze rawText f t]> (delete id (pending w)) /\
     error (app w') = error (app w) /\ effects w' = effects w) /\
  (let w' := step toLowerCase w (StructureSettled id Rejected) in
   error (app w') = Some uploadFailed /\ isAnalyzing (app w') = false /\
   resumeText (app w') = resumeText (app w) /\
   pending w' = delete id (pending w)).
Proof.
  intros Hrun Hid. split.
  - intros reply Htext. cbv zeta.
    rewrite (step_structure_settled toLowerCase w id rawText f t _ Hrun Hid).
    unfold structureResume. rewrite (orElse_falsy _ _ Htext). repeat split.
  - cbv zeta. rewrite (step_structure_settled toLowerCase w id rawText f t _ Hrun Hid).
    repeat split.
Qed.

Lemma structuring_fallback_witness :
  let w' := step asciiLower structuring (StructureSettled 1 silent) in
  resumeText (app w') = resumeBytes /\
  pending w' !! 2%nat = Some (AwaitAnalyze resumeBytes H24 AllTypes) /\
  error (app w') = None.
Proof.
  destruct (structuring_fallback asciiLower structuring 1 resumeBytes H24 AllTypes)
    as [Hsilent _].
  - reflexivity.
  - vm_compute. reflexivity.
  - destruct (Hsilent {| text := None; parsed := None |} eq_refl) as (Ht & Hp & He & _).
    unfold silent. split; [exact Ht|]. split; [rewrite Hp; apply lookup_insert_eq | rewrite He; reflexivity].
Defined.

(** C7, as stated, fails when the structuring call is rejected: the user
    sees the upload error, the resume text stays empty instead of taking the
    raw text, and nothing is pending, so no analysis follows. *)
Lemma structuring_failure_aborts :
  let w' := step asciiLower structuring (StructureSettled 1 Rejected) in
  pending structuring !! 1%nat = Some (AwaitStructure resumeBytes H24 AllTypes) /\
  error (app w') = Some uploadFailed /\
  resumeText (app w') = [] /\ resumeText (app w') <> resumeBytes /\
  pending w' = ∅ /\ analysis (app w') = None.
Proof.
  cbv zeta. repeat split; try (vm_compute; reflexivity).
  vm_compute. discriminate.
Qed.

End UploadFacts.

(** ** Facts about the document renderer *)

Module RendererFacts.
Import JsString GeminiService Renderer Spec Samples.

Section Layout.
Variable pageWidth : Q.
Variable splitTextToSize : fontStyle -> Q -> jsstring -> Q -> list jsstring.
Variable toUpperCase : jsstring -> jsstring.

(** A header, a bullet and a blank line never start a page, wherever the
    cursor stands. *)
Lemma renderLine_no_break (y : Q) (line : jsstring) :
  trim line = [] \/ isHeader (trim line) = true \/ isBullet (trim line) = true ->
  pagesAdded (fst (Renderer.renderLine pageWidth splitTextToSize toUpperCase y line)) = 0%nat.
Proof.
  intros H. unfold Renderer.renderLine.
  destruct (trim line) as [|c rest] eqn:E; [reflexivity|].
  destruct (isHeader (c :: rest)) eqn:Eh; [reflexivity|].
  destruct (isBullet (c :: rest)) eqn:Eb; [reflexivity|].
  destruct H as [H | [H | H]]; discriminate.
Qed.

(** The other lines do: when the block would end beyond 275, a page is
    started and the block is placed at the top margin. *)
Lemma renderLine_paragraph_break (y : Q) (line : jsstring) :
  trim line <> [] -> isHeader (trim line) = false -> isBullet (trim line) = false ->
  let sub := isSubHeader (trim line) in
  let splitText :=
    splitTextToSize (if sub then Bold else Normal) (if sub then 10.5 else 10)%Q (trim line)
      (pageWidth - margin * 2)%Q in
  (275 < y + lines_of (length splitText) * 5)%Q ->
  pagesAdded (fst (Renderer.renderLine pageWidth splitTextToSize toUpperCase y line)) = 1%nat /\
  In (TextBlock splitText margin 20%Q) (fst (Renderer.renderLine pageWidth splitTextToSize toUpperCase y line)).
Proof.
  intros Hne Hh Hb sub splitText Hover. subst sub splitText.
  unfold Renderer.renderLine.
  destruct (trim line) as [|c rest] eqn:E; [contradiction|].
  rewrite Hh, Hb. cbv zeta.
  destruct (Qlt_le_dec _ _) as [_|Hle].
  - split; [reflexivity|]. cbn. do 4 right. left. reflexivity.
  - exfalso. apply (Qlt_not_le _ _ Hover Hle).
Qed.

Lemma pagesAdded_app (a b : list op) : pagesAdded (a ++ b) = (pagesAdded a + pagesAdded b)%nat.
Proof. unfold pagesAdded. rewrite List.filter_app, length_app. reflexivity. Qed.

Lemma renderLines_no_break (lines : list jsstring) (y : Q) :
  Forall (fun line =>
            trim line = [] \/ isHeader (trim line) = true \/ isBullet (trim line) = true)
    lines ->
  pagesAdded (fst (Renderer.renderLines pageWidth splitTextToSize toUpperCase y lines)) = 0%nat.
Proof.
  revert y. induction lines as [|line rest IH]; intros y H; [reflexivity|].
  apply Forall_cons in H as [Hline Hrest]. cbn [Renderer.renderLines].
  pose proof (renderLine_no_break y line Hline) as H1.
  destruct (Renderer.renderLine pageWidth splitTextToSize toUpperCase y line) as [ops y1].
  specialize (IH y1 Hrest). destruct (Renderer.renderLines pageWidth splitTextToSize toUpperCase y1 rest) as [ops' y2].
  cbn [fst] in *. rewrite pagesAdded_app, H1, IH. reflexivity.
Qed.

End Layout.

(** C3 at sixty bullet lines.  Whatever the page width and the wrapping,
    no page is started; and with every bullet on one line of an A4 page the
    text runs beyond the bottom margin at 275 and beyond the page, which ends
    at 297. *)
Theorem bullets_run_past_bottom_margin :
  (forall pageWidth splitTextToSize toUpperCase,
     pagesAdded (downloadAsPDF pageWidth splitTextToSize toUpperCase sixtyBullets
                   (js "Tailored_Resume_Globex.pdf")) = 0%nat) /\
  let ops := downloadAsPDF a4Width oneLine sameCase sixtyBullets (js "Tailored_Resume_Globex.pdf") in
  drawnBeyond 275 ops = true /\ drawnBeyond 297 ops = true.
Proof.
  split.
  - intros pageWidth splitTextToSize toUpperCase. unfold downloadAsPDF.
    rewrite pagesAdded_app, renderLines_no_break; [reflexivity|].
    apply (bool_decide_unpack _). vm_compute. exact I.
  - cbv zeta. split; vm_compute; reflexivity.
Qed.

End RendererFacts.

(** ** Loading flags *)

Module FlagFacts.
Import JsString GeminiService App Spec Samples Coverage.

Lemma ids_upd_any (f : AppState -> AppState) (w : World) :
  idsBelowNext w -> idsBelowNext (upd f w).
Proof. exact (fun H => H). Qed.

Lemma ids_emit_any (e : effect) (w : World) : idsBelowNext w -> idsBelowNext (emit e w).
Proof. exact (fun H => H). Qed.

Lemma ids_crash (w : World) : idsBelowNext w -> idsBelowNext (crash w).
Proof. exact (fun H => H). Qed.

(** One layer of a handler taken off a goal [idsBelowNext _]. *)
Ltac ids_layer :=
  lazymatch goal with
  | |- idsBelowNext (upd _ _) => apply ids_upd_any
  | |- idsBelowNext (emit _ _) => apply ids_emit_any
  | |- idsBelowNext (crash _) => apply ids_crash
  | |- idsBelowNext (spawn _ _) => apply ExclusionFacts.ids_spawn
  | |- idsBelowNext (finish _ _) => apply ExclusionFacts.ids_finish
  | |- idsBelowNext (if ?b then _ else _) => destruct b eqn:?
  | |- idsBelowNext (match ?x with _ => _ end) => destruct x eqn:?
  end.

Ltac ids_auto := cbv zeta; repeat (ids_layer; cbv zeta); try assumption.

Lemma ids_attach (enabled : bool) (note : jsstring) (content : option jsstring)
    (filename : jsstring) (a : attempt) :
  match a with Done _ w | Threw w => idsBelowNext w end ->
  match attach enabled note content filename a with
  | Done _ w | Threw w => idsBelowNext w
  end.
Proof.
  destruct a as [info w|w]; intros H; cbn; [|exact H].
  destruct enabled; [|exact H]. destruct content; cbn; exact H.
Qed.

Lemma ids_mail_attach (text : jsstring) (job : Job) (options : EmailOptions)
    (subject body : option jsstring) (tailored : option Tailored) (w : World) :
  idsBelowNext w ->
  idsBelowNext (handleSendMail_attach text job options subject body tailored w).
Proof.
  intros H. unfold handleSendMail_attach. cbv zeta.
  match goal with
  | |- idsBelowNext (match ?a with _ => _ end) =>
      assert (Ha : match a with Done _ w' | Threw w' => idsBelowNext w' end)
  end.
  { apply ids_attach. destruct tailored; [apply ids_attach, ids_attach|]; exact H. }
  match goal with
  | |- idsBelowNext (match ?a with _ => _ end) => destruct a
  end; unfold handleSendMail_failed; ids_auto.
Qed.

Lemma ids_mail_composed (text : jsstring) (job : Job) (options : EmailOptions)
    (subject body : option jsstring) (w : World) :
  idsBelowNext w ->
  idsBelowNext (handleSendMail_composed text job options subject body w).
Proof.
  intros H. unfold handleSendMail_composed.
  destruct (_ || _); [ids_auto | apply ids_mail_attach, H].
Qed.

Section Backed.
Variable flag : AppState -> bool.
Variable kind : task -> bool.

Lemma backed_upd (f : AppState -> AppState) (w : World) :
  flag (f (app w)) = flag (app w) -> flagBacked flag kind w -> flagBacked flag kind (upd f w).
Proof.
  intros Hf [Hids Hb]. split; [exact Hids|]. cbn [app upd crashed pending].
  rewrite Hf. exact Hb.
Qed.

Lemma backed_cleared (f : AppState -> AppState) (w : World) :
  flag (f (app w)) = false -> idsBelowNext w -> flagBacked flag kind (upd f w).
Proof.
  intros Hf Hids. split; [exact Hids|]. cbn [app upd]. rewrite Hf. discriminate.
Qed.

Lemma backed_emit (e : effect) (w : World) :
  flagBacked flag kind w -> flagBacked flag kind (emit e w).
Proof. exact (fun H => H). Qed.

Lemma backed_crash (w : World) : idsBelowNext w -> flagBacked flag kind (crash w).
Proof. intros H. split; [exact H|]. cbn. discriminate. Qed.

Lemma backed_spawned (t : task) (w : World) :
  kind t = true -> idsBelowNext w -> flagBacked flag kind (spawn t w).
Proof.
  intros Ht Hids. split; [apply ExclusionFacts.ids_spawn, Hids|].
  intros _ _. exists (nextId w), t. split; [|exact Ht].
  cbn. apply lookup_insert_eq.
Qed.

Lemma backed_spawn (t : task) (w : World) :
  flagBacked flag kind w -> flagBacked flag kind (spawn t w).
Proof.
  intros [Hids Hb]. split; [apply ExclusionFacts.ids_spawn, Hids|].
  intros Hrun Hflag. destruct (Hb Hrun Hflag) as (i & ti & Hi & Hk).
  exists i, ti. split; [|exact Hk]. cbn.
  rewrite lookup_insert_ne; [exact Hi|].
  pose proof (Hids i ti Hi). lia.
Qed.

Lemma backed_finish (id : nat) (t : task) (w : World) :
  pending w !! id = Some t -> kind t = false ->
  flagBacked flag kind w -> flagBacked flag kind (finish id w).
Proof.
  intros Hid Ht [Hids Hb]. split; [apply ExclusionFacts.ids_finish, Hids|].
  intros Hrun Hflag. destruct (Hb Hrun Hflag) as (i & ti & Hi & Hk).
  exists i, ti. split; [|exact Hk]. cbn.
  rewrite lookup_delete_ne; [exact Hi | congruence].
Qed.

Lemma backed_ids (w : World) : flagBacked flag kind w -> idsBelowNext w.
Proof. intros [H _]. exact H. Qed.

Lemma backed_attach (enabled : bool) (note : jsstring) (content : option jsstring)
    (filename : jsstring) (a : attempt) :
  match a with Done _ w | Threw w => flagBacked flag kind w end ->
  match attach enabled note content filename a with
  | Done _ w | Threw w => flagBacked flag kind w
  end.
Proof.
  destruct a as [info w|w]; intros H; cbn; [|exact H].
  destruct enabled; [|exact H]. destruct content; cbn; exact H.
Qed.

Lemma backed_download (content : option jsstring) (filename : jsstring) (w w' : World) :
  download content filename w = Resolved w' ->
  flagBacked flag kind w -> flagBacked flag kind w'.
Proof.
  unfold download. destruct content; [|discriminate].
  intros Hd H. injection Hd as <-. exact H.
Qed.

End Backed.

(** One layer of a handler taken off a goal [flagBacked flag kind _]: a
    step that clears the flag or starts a task of the kind settles the goal
    up to the identifiers, any other step is passed through. *)
Ltac backed_layer :=
  lazymatch goal with
  | |- flagBacked _ _ (upd _ _) =>
      first [ apply backed_cleared; [reflexivity|]
            | apply backed_upd; [reflexivity|] ]
  | |- flagBacked _ _ (emit _ _) => apply backed_emit
  | |- flagBacked _ _ (crash _) => apply backed_crash
  | |- flagBacked _ _ (spawn _ _) =>
      first [ apply backed_spawned; [reflexivity|] | apply backed_spawn ]
  | |- flagBacked _ _ (finish _ _) => eapply backed_finish; [eassumption | reflexivity |]
  | |- flagBacked _ _ (if ?b then _ else _) => destruct b eqn:?
  | |- flagBacked _ _ (match ?x with _ => _ end) => destruct x eqn:?
  | |- idsBelowNext _ => ids_layer
  end.

Ltac backed_auto :=
  cbv zeta; repeat (backed_layer; cbv zeta);
  try assumption; try (eapply backed_ids; eassumption);
  try (eapply backed_download; [eassumption|]; repeat (backed_layer; cbv zeta);
       try assumption).

(** The script for [handleSendMail_attach], whose attachment steps only
    emit documents. *)
Ltac backed_mail_attach_script :=
  intros H; unfold handleSendMail_attach; cbv zeta;
  match goal with
  | |- flagBacked ?flag ?kind (match ?a with _ => _ end) =>
      assert (Ha : match a with Done _ w' | Threw w' => flagBacked flag kind w' end);
      [ apply backed_attach;
        match goal with
        | |- context [match ?tailored with Some _ => _ | None => _ end] =>
            destruct tailored; [apply backed_attach, backed_attach|]; exact H
        end
      | destruct a; unfold handleSendMail_failed; backed_auto ]
  end.

Ltac backed_dispatch_script :=
  intros H;
  lazymatch goal with
  | |- flagBacked _ _ (dispatch _ ?e _) => destruct e
  end;
  unfold dispatch, onDrop, onDrop_loaded, onDrop_extract_settled, onDrop_extracted,
    onDrop_structure_settled, onDrop_analyze_settled, onDrop_failed, handleSearch_settled,
    changeFilter, changeJobType, toggleJobExpansion, handleAddSkill, handleRemoveSkill,
    openEditModal, addSkillInModal, removeSkillInModal, handleUpdateDraft, saveField,
    undoField, handleRefineSearch, clickTailor, handleGenerateTailored,
    handleGenerateTailored_settled, clickSendMail, handleSendMail,
    handleSendMail_tailor_settled, handleSendMail_content_settled, handleSendMail_failed,
    uploadNew, handleSearch.

Lemma searching_mail_attach (text : jsstring) (job : Job) (options : EmailOptions)
    (subject body : option jsstring) (tailored : option Tailored) (w : World) :
  flagBacked isSearching isSearchTask w ->
  flagBacked isSearching isSearchTask
    (handleSendMail_attach text job options subject body tailored w).
Proof. backed_mail_attach_script. Qed.

Lemma searching_mail_composed (text : jsstring) (job : Job) (options : EmailOptions)
    (subject body : option jsstring) (w : World) :
  flagBacked isSearching isSearchTask w ->
  flagBacked isSearching isSearchTask
    (handleSendMail_composed text job options subject body w).
Proof.
  intros H. unfold handleSendMail_composed.
  destruct (_ || _); [backed_auto | apply searching_mail_attach, H].
Qed.

Lemma analyzing_mail_attach (text : jsstring) (job : Job) (options : EmailOptions)
    (subject body : option jsstring) (tailored : option Tailored) (w : World) :
  flagBacked isAnalyzing isPipelineTask w ->
  flagBacked isAnalyzing isPipelineTask
    (handleSendMail_attach text job options subject body tailored w).
Proof. backed_mail_attach_script. Qed.

Lemma analyzing_mail_composed (text : jsstring) (job : Job) (options : EmailOptions)
    (subject body : option jsstring) (w : World) :
  flagBacked isAnalyzing isPipelineTask w ->
  flagBacked isAnalyzing isPipelineTask
    (handleSendMail_composed text job options subject body w).
Proof.
  intros H. unfold handleSendMail_composed.
  destruct (_ || _); [backed_auto | apply analyzing_mail_attach, H].
Qed.

Section Reachable.
Variable toLowerCase : jsstring -> jsstring.

Lemma searching_dispatch (e : event) (w : World) :
  flagBacked isSearching isSearchTask w ->
  flagBacked isSearching isSearchTask (dispatch toLowerCase e w).
Proof.
  backed_dispatch_script; backed_auto;
    first [ apply searching_mail_composed | apply searching_mail_attach ]; backed_auto.
Qed.

Lemma analyzing_dispatch (e : event) (w : World) :
  flagBacked isAnalyzing isPipelineTask w ->
  flagBacked isAnalyzing isPipelineTask (dispatch toLowerCase e w).
Proof.
  backed_dispatch_script; backed_auto;
    first [ apply analyzing_mail_composed | apply analyzing_mail_attach ]; backed_auto.
Qed.

End Reachable.

End FlagFacts.

(** ** The sending flag and the application email *)

Module MailFacts.
Import JsString GeminiService App Spec Samples Coverage.
Import FlagFacts.

Lemma noMail_upd (f : AppState -> AppState) (w : World) : noMail w -> noMail (upd f w).
Proof. exact (fun H => H). Qed.

Lemma noMail_emit (e : effect) (w : World) : noMail w -> noMail (emit e w).
Proof. exact (fun H => H). Qed.

Lemma noMail_attach (enabled : bool) (note : jsstring) (content : option jsstring)
    (filename : jsstring) (a : attempt) :
  match a with Done _ w | Threw w => noMail w end ->
  match attach enabled note content filename a with
  | Done _ w | Threw w => noMail w
  end.
Proof.
  destruct a as [info w|w]; intros H; cbn; [|exact H].
  destruct enabled; [|exact H]. destruct content; cbn; exact H.
Qed.

Lemma sending_cleared (f : AppState -> AppState) (w : World) :
  isSendingMail (f (app w)) = false -> noMail w -> sendingGuardsMail (upd f w).
Proof.
  intros Hf [Hids Hno]. split; [exact Hids|]. cbn [app upd]. rewrite Hf. exact Hno.
Qed.

Lemma sending_started (t : task) (w : World) :
  isMailTask t = true -> isSendingMail (app w) = true -> noMail w ->
  sendingGuardsMail (spawn t w).
Proof.
  intros Ht Hflag [Hids Hno]. split; [apply ExclusionFacts.ids_spawn, Hids|].
  cbn [app spawn pending]. rewrite Hflag. exists (nextId w). split.
  - exists t. split; [apply lookup_insert_eq | exact Ht].
  - intros j tj Hj Htj. destruct (decide (nextId w = j)) as [<-|Hne]; [reflexivity|].
    rewrite lookup_insert_ne in Hj by exact Hne. apply Hno in Hj. congruence.
Qed.

Lemma sending_finished (id : nat) (t : task) (w : World) :
  pending w !! id = Some t -> isMailTask t = true -> sendingGuardsMail w ->
  noMail (finish id w) /\ isSendingMail (app w) = true.
Proof.
  intros Hid Ht [Hids Hk]. destruct (isSendingMail (app w)) eqn:Hflag.
  - split; [|reflexivity]. split; [apply ExclusionFacts.ids_finish, Hids|].
    destruct Hk as (k & _ & Huniq). intros i ti Hi. cbn in Hi.
    apply lookup_delete_Some in Hi as [Hne Hi].
    destruct (isMailTask ti) eqn:Hti; [|reflexivity].
    pose proof (Huniq i ti Hi Hti). pose proof (Huniq id t Hid Ht). congruence.
  - apply Hk in Hid. congruence.
Qed.

Lemma sending_upd (f : AppState -> AppState) (w : World) :
  isSendingMail (f (app w)) = isSendingMail (app w) ->
  sendingGuardsMail w -> sendingGuardsMail (upd f w).
Proof.
  intros Hf [Hids Hk]. split; [exact Hids|]. cbn [app upd]. rewrite Hf. exact Hk.
Qed.

Lemma sending_emit (e : effect) (w : World) :
  sendingGuardsMail w -> sendingGuardsMail (emit e w).
Proof. exact (fun H => H). Qed.

Lemma sending_crash (w : World) : sendingGuardsMail w -> sendingGuardsMail (crash w).
Proof. exact (fun H => H). Qed.

Lemma sending_spawn (t : task) (w : World) :
  isMailTask t = false -> sendingGuardsMail w -> sendingGuardsMail (spawn t w).
Proof.
  intros Ht [Hids Hk]. split; [apply ExclusionFacts.ids_spawn, Hids|].
  pose proof (ExclusionFacts.spawn_fresh t w Hids) as Hfresh.
  unfold noTaskOf in *. cbn [app spawn pending]. destruct (isSendingMail (app w)).
  - destruct Hk as (i & (ti & Hi & Hti) & Huniq). exists i. split.
    + exists ti. split; [|exact Hti].
      rewrite lookup_insert_ne; [exact Hi | congruence].
    + intros j tj Hj Htj. destruct (decide (nextId w = j)) as [<-|Hne].
      * rewrite lookup_insert_eq in Hj. congruence.
      * rewrite lookup_insert_ne in Hj by exact Hne. exact (Huniq j tj Hj Htj).
  - intros i ti Hi. destruct (decide (nextId w = i)) as [<-|Hne].
    + rewrite lookup_insert_eq in Hi. congruence.
    + rewrite lookup_insert_ne in Hi by exact Hne. exact (Hk i ti Hi).
Qed.

Lemma sending_finish (id : nat) (t : task) (w : World) :
  pending w !! id = Some t -> isMailTask t = false ->
  sendingGuardsMail w -> sendingGuardsMail (finish id w).
Proof.
  intros Hid Ht [Hids Hk]. split; [apply ExclusionFacts.ids_finish, Hids|].
  unfold noTaskOf in *. cbn [app finish pending]. destruct (isSendingMail (app w)).
  - destruct Hk as (i & (ti & Hi & Hti) & Huniq). exists i. split.
    + exists ti. split; [|exact Hti].
      rewrite lookup_delete_ne; [exact Hi | congruence].
    + intros j tj Hj Htj. apply lookup_delete_Some in Hj as [_ Hj].
      exact (Huniq j tj Hj Htj).
  - intros i ti Hi. apply lookup_delete_Some in Hi as [_ Hi]. exact (Hk i ti Hi).
Qed.

Lemma sending_download (content : option jsstring) (filename : jsstring) (w w' : World) :
  download content filename w = Resolved w' ->
  sendingGuardsMail w -> sendingGuardsMail w'.
Proof.
  unfold download. destruct content; [|discriminate].
  intros Hd H. injection Hd as <-. exact H.
Qed.

Lemma sending_failed (w : World) : noMail w -> sendingGuardsMail (handleSendMail_failed w).
Proof.
  intros H. unfold handleSendMail_failed. cbv zeta.
  apply sending_cleared; [reflexivity|]. apply noMail_emit, noMail_upd, H.
Qed.

Lemma sending_attach (text : jsstring) (job : Job) (options : EmailOptions)
    (subject body : option jsstring) (tailored : option Tailored) (w : World) :
  noMail w ->
  sendingGuardsMail (handleSendMail_attach text job options subject body tailored w).
Proof.
  intros H. unfold handleSendMail_attach. cbv zeta.
  match goal with
  | |- sendingGuardsMail (match ?a with _ => _ end) =>
      assert (Ha : match a with Done _ w' | Threw w' => noMail w' end)
  end.
  { apply noMail_attach. destruct tailored; [apply noMail_attach, noMail_attach|]; exact H. }
  match goal with
  | |- sendingGuardsMail (match ?a with _ => _ end) => destruct a
  end.
  - apply sending_cleared; [reflexivity|]. apply noMail_upd, noMail_emit, Ha.
  - apply sending_failed, Ha.
Qed.

Lemma sending_composed (text : jsstring) (job : Job) (options : EmailOptions)
    (subject body : option jsstring) (w : World) :
  isSendingMail (app w) = true -> noMail w ->
  sendingGuardsMail (handleSendMail_composed text job options subject body w).
Proof.
  intros Hflag H. unfold handleSendMail_composed. destruct (_ || _).
  - apply sending_started; [reflexivity | exact Hflag | exact H].
  - apply sending_attach, H.
Qed.

Lemma sending_handleSendMail (w : World) :
  isSendingMail (app w) = false -> sendingGuardsMail w ->
  sendingGuardsMail (handleSendMail w).
Proof.
  intros Hflag H. unfold handleSendMail. cbv zeta.
  destruct (emailModalJob (app w)) as [job|]; [|exact H].
  assert (Hno : noMail (upd (setIsSendingMail true) w)).
  { destruct H as [Hids Hk]. rewrite Hflag in Hk. split; assumption. }
  destruct (generateMailContent (emailOptions (app w))).
  - apply sending_started; [reflexivity | reflexivity | exact Hno].
  - apply sending_composed; [reflexivity | exact Hno].
Qed.

(** One layer of a handler that neither reads the flag nor touches an
    email task taken off a goal [sendingGuardsMail _]. *)
Ltac sending_layer :=
  lazymatch goal with
  | |- sendingGuardsMail (upd _ _) => apply sending_upd; [reflexivity|]
  | |- sendingGuardsMail (emit _ _) => apply sending_emit
  | |- sendingGuardsMail (crash _) => apply sending_crash
  | |- sendingGuardsMail (spawn _ _) => apply sending_spawn; [reflexivity|]
  | |- sendingGuardsMail (finish _ _) => eapply sending_finish; [eassumption | reflexivity |]
  | |- sendingGuardsMail (if ?b then _ else _) => destruct b eqn:?
  | |- sendingGuardsMail (match ?x with _ => _ end) => destruct x eqn:?
  end.

Ltac sending_auto :=
  cbv zeta; repeat (sending_layer; cbv zeta); try assumption;
  try (eapply sending_download; [eassumption|]; repeat (sending_layer; cbv zeta);
       try assumption).

Section Reachable.
Variable toLowerCase : jsstring -> jsstring.

Lemma sending_dispatch (e : event) (w : World) :
  sendingGuardsMail w -> sendingGuardsMail (dispatch toLowerCase e w).
Proof.
  intros H. destruct e;
    try (unfold dispatch, onDrop, onDrop_loaded, onDrop_extract_settled, onDrop_extracted,
           onDrop_structure_settled, onDrop_analyze_settled, onDrop_failed,
           handleSearch_settled, changeFilter, changeJobType, toggleJobExpansion,
           handleAddSkill, handleRemoveSkill, openEditModal, addSkillInModal,
           removeSkillInModal, handleUpdateDraft, saveField, undoField, handleRefineSearch,
           clickTailor, handleGenerateTailored, uploadNew, handleSearch;
         sending_auto; fail).
  - (* TailorSettled *)
    unfold dispatch. cbv zeta.
    destruct (pending w !! id) as [t|] eqn:Hid; [|exact H].
    destruct t; try exact H.
    + unfold handleGenerateTailored_settled. sending_auto.
    + destruct (sending_finished id _ w Hid eq_refl H) as [Hno _].
      unfold handleSendMail_tailor_settled.
      destruct (generateTailoredContent o);
        [apply sending_attach | apply sending_failed]; exact Hno.
  - (* ComposeSettled *)
    unfold dispatch. cbv zeta.
    destruct (pending w !! id) as [t|] eqn:Hid; [|exact H].
    destruct t; try exact H.
    destruct (sending_finished id _ w Hid eq_refl H) as [Hno Hflag].
    unfold handleSendMail_content_settled.
    destruct (generateEmailContent o);
      [apply sending_composed; [exact Hflag | exact Hno] | apply sending_failed, Hno].
  - (* ClickSendMail *)
    unfold dispatch, clickSendMail. cbv zeta.
    destruct (emailModal (app w)); [|exact H].
    destruct (isSendingMail (app w)) eqn:Hflag; [exact H|].
    apply sending_handleSendMail; assumption.
Qed.

Lemma sending_run (es : list event) (w : World) :
  sendingGuardsMail w -> sendingGuardsMail (run toLowerCase w es).
Proof.
  revert w. induction es as [|e es IH]; intros w H; [exact H|].
  cbn [run fold_left]. apply IH. unfold step. destruct (crashed w); [exact H|].
  unfold rerender. destruct (decide _); apply sending_dispatch, H.
Qed.

End Reachable.

Lemma sending_initial : sendingGuardsMail initialWorld.
Proof.
  split.
  - intros i t Hi. cbn in Hi. rewrite lookup_empty in Hi. discriminate.
  - cbn. intros i t Hi. cbn in Hi. rewrite lookup_empty in Hi. discriminate.
Qed.

End MailFacts.

(** ** What the loading flags tell *)

Module LoadingFacts.
Import JsString GeminiService App Spec Samples Coverage.

Lemma backed_initial (flag : AppState -> bool) (kind : task -> bool) :
  flag initialState = false -> flagBacked flag kind initialWorld.
Proof.
  intros Hf. split.
  - intros i t Hi. cbn in Hi. rewrite lookup_empty in Hi. discriminate.
  - cbn. rewrite Hf. discriminate.
Qed.

Lemma backed_run (toLowerCase : jsstring -> jsstring) (flag : AppState -> bool)
    (kind : task -> bool) :
  (forall e w, flagBacked flag kind w -> flagBacked flag kind (dispatch toLowerCase e w)) ->
  forall es w, flagBacked flag kind w -> flagBacked flag kind (run toLowerCase w es).
Proof.
  intros Hd es. induction es as [|e es IH]; intros w H; [exact H|].
  cbn [run fold_left]. apply IH. unfold step. destruct (crashed w); [exact H|].
  unfold rerender. destruct (decide _); apply Hd, H.
Qed.

(** X1.  The searching flag is never left on: in every state the running
    component can reach, a set flag has a search pending whose settlement
    clears it. *)
Theorem searching_flag_backed (toLowerCase : jsstring -> jsstring) (es : list event) :
  let w := run toLowerCase initialWorld es in
  crashed w = false -> isSearching (app w) = true ->
  exists i a f t, pending w !! i = Some (AwaitSearch a f t).
Proof.
  intros w Hrun Hflag.
  destruct (backed_run toLowerCase isSearching isSearchTask
              (FlagFacts.searching_dispatch toLowerCase) es initialWorld
              (backed_initial _ _ eq_refl)) as [_ Hb].
  destruct (Hb Hrun Hflag) as (i & t & Hi & Ht).
  destruct t; try discriminate. eauto.
Qed.

Lemma searching_flag_backed_witness :
  exists i a f t, pending oneSearch !! i = Some (AwaitSearch a f t).
Proof.
  apply (searching_flag_backed asciiLower (uploaded ++ [ChangeFilter H48])).
  - vm_compute. reflexivity.
  - vm_compute. reflexivity.
Defined.

(** X2.  The analyzing flag, which puts the overlay over the page, is never
    left on: in every state the running component can reach, a set flag has
    a stage of an upload pending (extraction, structuring or analysis). *)
Theorem analyzing_flag_backed (toLowerCase : jsstring -> jsstring) (es : list event) :
  let w := run toLowerCase initialWorld es in
  crashed w = false -> isAnalyzing (app w) = true ->
  exists i t, pending w !! i = Some t /\ isPipelineTask t = true.
Proof.
  intros w Hrun Hflag.
  destruct (backed_run toLowerCase isAnalyzing isPipelineTask
              (FlagFacts.analyzing_dispatch toLowerCase) es initialWorld
              (backed_initial _ _ eq_refl)) as [_ Hb].
  exact (Hb Hrun Hflag).
Qed.

Lemma analyzing_flag_backed_witness :
  exists i t, pending structuring !! i = Some t /\ isPipelineTask t = true.
Proof.
  apply (analyzing_flag_backed asciiLower [DropFiles [js "cv.txt"]; ReadDone 0 resumeBytes]).
  - vm_compute. reflexivity.
  - vm_compute. reflexivity.
Defined.

(** X3.  At most one application email is being prepared at a time: in
    every reachable state the sending flag is set exactly while one stage of
    [handleSendMail] is pending, and while it is set the send control
    changes nothing. *)
Theorem mail_flows_exclusive (toLowerCase : jsstring -> jsstring) (es : list event) :
  let w := run toLowerCase initialWorld es in
  (forall i j ti tj,
     pending w !! i = Some ti -> pending w !! j = Some tj ->
     isMailTask ti = true -> isMailTask tj = true -> i = j) /\
  (isSendingMail (app w) = true <->
     exists i t, pending w !! i = Some t /\ isMailTask t = true) /\
  (isSendingMail (app w) = true -> clickSendMail w = w).
Proof.
  intros w.
  pose proof (MailFacts.sending_run toLowerCase es _ MailFacts.sending_initial) as [Hids Hk].
  fold w in Hids, Hk. split; [|split; [split|]].
  - intros i j ti tj Hi Hj Hti Htj. destruct (isSendingMail (app w)).
    + destruct Hk as (k & _ & Huniq).
      rewrite (Huniq i ti Hi Hti), (Huniq j tj Hj Htj). reflexivity.
    + apply Hk in Hi. congruence.
  - intros Hflag. rewrite Hflag in Hk. destruct Hk as (i & (t & Hi & Ht) & _).
    exists i, t. split; assumption.
  - intros (i & t & Hi & Ht). destruct (isSendingMail (app w)); [reflexivity|].
    apply Hk in Hi. congruence.
  - intros Hflag. unfold clickSendMail. rewrite Hflag. reflexivity.
Qed.

Lemma mail_flows_exclusive_witness :
  clickSendMail composing = composing.
Proof.
  apply (mail_flows_exclusive asciiLower (uploaded ++ [OpenEmail 0; ClickSendMail])).
  vm_compute. reflexivity.
Defined.

End LoadingFacts.

(** ** More on the profile *)

Module SkillFacts.
Import JsString GeminiService App Spec Samples Coverage.

Lemma fold_set_add_fresh (l acc : list jsstring) :
  NoDup (acc ++ l) -> fold_left set_add l acc = acc ++ l.
Proof.
  revert acc. induction l as [|x l IH]; intros acc H; cbn [fold_left].
  - rewrite app_nil_r. reflexivity.
  - assert (Hx : x ∉ acc).
    { apply NoDup_app in H as (_ & Hdisj & _). intros Hin.
      apply (Hdisj x Hin). left. }
    unfold set_add at 2. destruct (decide (x ∈ acc)); [contradiction|].
    rewrite IH; rewrite <- app_assoc; [reflexivity | exact H].
Qed.

Lemma newSet_NoDup_id (l : list jsstring) : NoDup l -> newSet l = l.
Proof. intros H. unfold newSet. rewrite fold_set_add_fresh; [reflexivity | exact H]. Qed.

Lemma newSet_snoc (l : list jsstring) (x : jsstring) :
  NoDup l -> newSet (l ++ [x]) = if decide (x ∈ l) then l else l ++ [x].
Proof.
  intros H. unfold newSet. rewrite fold_left_app. cbn [fold_left].
  fold (newSet l). rewrite (newSet_NoDup_id l H). reflexivity.
Qed.

Lemma without_absent (x : jsstring) (l : list jsstring) : x ∉ l -> without x l = l.
Proof.
  intros H. unfold without. induction l as [|y l IH]; [reflexivity|].
  apply not_elem_of_cons in H as [Hne Hl].
  rewrite filter_cons_True by congruence. rewrite (IH Hl). reflexivity.
Qed.

Lemma without_snoc (x : jsstring) (l : list jsstring) : x ∉ l -> without x (l ++ [x]) = l.
Proof.
  intros H. unfold without. rewrite filter_app. fold (without x l).
  rewrite (without_absent x l H). rewrite filter_cons_False by (intros Hne; apply Hne; reflexivity).
  cbn. apply app_nil_r.
Qed.

(** X4.  On a skills list without duplicates, submitting a skill that is
    already listed leaves the list as it is and submitting a new one puts it
    last; either way the input field is emptied and a search for the updated
    profile is issued with the filters selected. *)
Theorem handleAddSkill_appends (w : World) (a : ResumeAnalysis) :
  analysis (app w) = Some a -> NoDup (skills a) -> trim (newSkill (app w)) <> [] ->
  let s := trim (newSkill (app w)) in
  let l := if decide (s ∈ skills a) then skills a else skills a ++ [s] in
  let w' := handleAddSkill w in
  analysis (app w') = Some (with_skills a l) /\
  newSkill (app w') = [] /\
  pending w' = <[nextId w := AwaitSearch (with_skills a l) (timeFilter (app w))
                                (jobType (app w))]> (pending w).
Proof.
  intros Ha Hnd Hs. cbv zeta. unfold handleAddSkill. rewrite Ha.
  destruct (trim (newSkill (app w))) as [|c rest] eqn:E; [contradiction|].
  rewrite (newSet_snoc _ _ Hnd). repeat split.
Qed.

Lemma handleAddSkill_appends_witness :
  liveSkills (handleAddSkill (upd (setNewSkill (js "  Lean ")) board))
    = [js "React"; js "Rocq"; js "Lean"].
Proof.
  pose proof (handleAddSkill_appends (upd (setNewSkill (js "  Lean ")) board)
                (profile [js "React"; js "Rocq"])) as H.
  destruct H as [Ha _].
  - vm_compute. reflexivity.
  - apply (bool_decide_unpack _). vm_compute. exact I.
  - vm_compute. discriminate.
  - unfold liveSkills. rewrite Ha. vm_compute. reflexivity.
Defined.

(** X5.  Removing a skill leaves none of its occurrences and keeps every
    other entry; removing a skill that is not listed leaves the list as it
    is, and a search is issued all the same. *)
Theorem handleRemoveSkill_removes (w : World) (a : ResumeAnalysis) (skill : jsstring) :
  analysis (app w) = Some a ->
  let w' := handleRemoveSkill skill w in
  (skill ∉ liveSkills w') /\
  (forall x, x <> skill -> (x ∈ liveSkills w' <-> x ∈ skills a)) /\
  (skill ∉ skills a -> liveSkills w' = skills a) /\
  pending w' = <[nextId w := AwaitSearch (with_skills a (without skill (skills a)))
                                (timeFilter (app w)) (jobType (app w))]> (pending w).
Proof.
  intros Ha. cbv zeta. unfold handleRemoveSkill. rewrite Ha.
  unfold liveSkills. cbn. unfold without. repeat split.
  - intros Hin. apply list_elem_of_filter in Hin as [Hne _]. apply Hne. reflexivity.
  - intros Hin. apply list_elem_of_filter in Hin as [_ Hin]. exact Hin.
  - intros Hin. apply list_elem_of_filter. split; assumption.
  - intros Hnot. apply (without_absent skill (skills a) Hnot).
Qed.

Lemma handleRemoveSkill_removes_witness :
  liveSkills (handleRemoveSkill (js "Lean") board) = [js "React"; js "Rocq"].
Proof.
  destruct (handleRemoveSkill_removes board (profile [js "React"; js "Rocq"]) (js "Lean"))
    as (_ & _ & Hsame & _).
  - vm_compute. reflexivity.
  - rewrite Hsame; [reflexivity|].
    apply (bool_decide_unpack _). vm_compute. exact I.
Defined.

(** X6.  Adding a skill that was not listed and then removing it gives back
    the skills list there was, when that list had no duplicates. *)
Theorem add_then_remove_skill (w : World) (a : ResumeAnalysis) (s : jsstring) :
  analysis (app w) = Some a -> NoDup (skills a) ->
  trim s <> [] -> trim s ∉ skills a ->
  liveSkills (callSkills w [AddSkill s; RemoveSkillCall (trim s)]) = skills a.
Proof.
  intros Ha Hnd Hs Hnew. cbn [callSkills fold_left callSkill].
  unfold handleAddSkill. cbn [app upd newSkill setNewSkill analysis].
  rewrite Ha. destruct (trim s) as [|c rest] eqn:E; [contradiction|].
  rewrite (newSet_snoc _ _ Hnd). destruct (decide _) as [Hin|_]; [contradiction|].
  unfold handleRemoveSkill, liveSkills. cbn.
  apply without_snoc, Hnew.
Qed.

Lemma add_then_remove_skill_witness :
  liveSkills (callSkills board [AddSkill (js " Lean"); RemoveSkillCall (js "Lean")])
    = [js "React"; js "Rocq"].
Proof.
  apply (add_then_remove_skill board (profile [js "React"; js "Rocq"]) (js " Lean")).
  - vm_compute. reflexivity.
  - apply (bool_decide_unpack _). vm_compute. exact I.
  - vm_compute. discriminate.
  - apply (bool_decide_unpack _). vm_compute. exact I.
Defined.

Lemma verbatim_filter_all (toLowerCase : jsstring -> jsstring) (resumeText : jsstring)
    (l : list jsstring) :
  Forall (fun skill => ci_substring toLowerCase skill resumeText) l ->
  verbatim_filter toLowerCase resumeText l = l.
Proof.
  unfold verbatim_filter. induction l as [|x l IH]; intros Hall; [reflexivity|].
  apply Forall_cons in Hall as [Hx Hl]. cbn [List.filter].
  apply JsStringFacts.includes_infix in Hx. rewrite Hx. f_equal. exact (IH Hl).
Qed.

(** X7.  The filter of [analyzeResume] removes nothing else: a skill of the
    reply is in the analysis exactly when it occurs in the resume text after
    lower casing, every other field of the reply is returned as it came, and
    a reply whose skills all occur in the text is returned unchanged. *)
Theorem analyzeResume_keeps_verbatim (toLowerCase : jsstring -> jsstring)
    (resumeText : jsstring) (reply : response parsed_analysis) (r : ResumeAnalysis) :
  truthy (text reply) = true -> parsed reply = Some (WithSkillArray r) ->
  exists r',
    analyzeResume toLowerCase resumeText (Resolved reply) = Resolved (WithSkillArray r') /\
    (forall skill,
       In skill (skills r') <->
       In skill (skills r) /\ ci_substring toLowerCase skill resumeText) /\
    r' = with_skills r (skills r') /\
    (Forall (fun skill => ci_substring toLowerCase skill resumeText) (skills r) -> r' = r).
Proof.
  intros Ht Hp. unfold analyzeResume. rewrite Ht, Hp.
  eexists. split; [reflexivity|]. cbn [skills with_skills]. split; [|split].
  - intros skill. unfold verbatim_filter. rewrite List.filter_In.
    unfold ci_substring. rewrite JsStringFacts.includes_infix. reflexivity.
  - reflexivity.
  - intros Hall. rewrite (verbatim_filter_all _ _ _ Hall).
    destruct r; reflexivity.
Qed.

Lemma analyzeResume_keeps_verbatim_witness :
  exists r',
    analyzeResume asciiLower resumeBytes
      (reply (WithSkillArray (profile [js "rocq"; js "Leadership"; js "REACT"])))
      = Resolved (WithSkillArray r') /\
    (In (js "rocq") (skills r') /\ ~ In (js "Leadership") (skills r')).
Proof.
  destruct (analyzeResume_keeps_verbatim asciiLower resumeBytes
              {| text := Some (js "{...}");
                 parsed := Some (WithSkillArray
                                   (profile [js "rocq"; js "Leadership"; js "REACT"])) |}
              (profile [js "rocq"; js "Leadership"; js "REACT"]) eq_refl eq_refl)
    as (r' & Hr & Hiff & _).
  exists r'. split; [exact Hr|]. split.
  - apply Hiff. split; [left; reflexivity|].
    apply JsStringFacts.includes_infix. vm_compute. reflexivity.
  - intros Hin. apply Hiff in Hin as [_ Hsub].
    apply JsStringFacts.includes_infix in Hsub. vm_compute in Hsub. discriminate.
Defined.

End SkillFacts.

(** ** The edit session and the job cards *)

Module SessionFacts.
Import JsString GeminiService App Spec Samples Coverage.

(** Case analysis on every scrutinee of the goal, innermost first. *)
Ltac split_matches :=
  repeat match goal with
         | |- context [match ?x with _ => _ end] =>
             lazymatch x with
             | context [match _ with _ => _ end] => fail
             | _ => destruct x
             end
         end.

Lemma attach_app (x : AppState) (enabled : bool) (note : jsstring)
    (content : option jsstring) (filename : jsstring) (a : attempt) :
  match a with Done _ w | Threw w => app w = x end ->
  match attach enabled note content filename a with
  | Done _ w | Threw w => app w = x
  end.
Proof.
  destruct a as [info w|w]; intros H; cbn; [|exact H].
  destruct enabled; [|exact H]. destruct content; cbn; exact H.
Qed.

(** The state after the last stage of [handleSendMail]: the modal closed,
    or the error set, and the sending flag cleared either way. *)
Lemma handleSendMail_attach_app (text : jsstring) (job : Job) (options : EmailOptions)
    (subject body : option jsstring) (tailored : option Tailored) (w : World) :
  let w' := handleSendMail_attach text job options subject body tailored w in
  app w' = setIsSendingMail false (setEmailModalJob None (app w)) \/
  app w' = setIsSendingMail false (setError (Some mailFailed) (app w)).
Proof.
  cbv zeta. unfold handleSendMail_attach. cbv zeta.
  match goal with
  | |- context [match ?a with Done _ _ => _ | Threw _ => _ end] =>
      assert (Ha : match a with Done _ w' | Threw w' => app w' = app w end);
      [ apply attach_app; destruct tailored; [apply attach_app, attach_app|]; reflexivity
      | destruct a; cbn; rewrite Ha; [left | right]; reflexivity ]
  end.
Qed.

Lemma history_attach (text : jsstring) (job : Job) (options : EmailOptions)
    (subject body : option jsstring) (tailored : option Tailored) (w : World) :
  history (app (handleSendMail_attach text job options subject body tailored w))
    = history (app w).
Proof.
  destruct (handleSendMail_attach_app text job options subject body tailored w) as [H|H];
    rewrite H; reflexivity.
Qed.

Lemma history_composed (text : jsstring) (job : Job) (options : EmailOptions)
    (subject body : option jsstring) (w : World) :
  history (app (handleSendMail_composed text job options subject body w))
    = history (app w).
Proof.
  unfold handleSendMail_composed. destruct (_ || _); [reflexivity | apply history_attach].
Qed.

(** What an event other than opening the modal can do to the history: leave
    it, append the draft to it, or drop its last entry when it has more than
    one. *)
Lemma history_dispatch (toLowerCase : jsstring -> jsstring) (e : event) (w : World) :
  isOpenEdit e = false ->
  let h := history (app w) in
  let h' := history (app (dispatch toLowerCase e w)) in
  h' = h \/ (exists d, h' = h ++ [d]) \/ ((1 < length h)%nat /\ h' = dropLast h).
Proof.
  intros He. cbv zeta. destruct e; try discriminate;
    try (left;
         unfold dispatch, onDrop, onDrop_loaded, onDrop_extract_settled, onDrop_extracted,
           onDrop_structure_settled, onDrop_analyze_settled, onDrop_failed,
           handleSearch_settled, changeFilter, changeJobType, toggleJobExpansion,
           handleAddSkill, handleRemoveSkill, addSkillInModal, removeSkillInModal,
           handleUpdateDraft, handleRefineSearch, clickTailor, handleGenerateTailored,
           handleGenerateTailored_settled, download, clickSendMail, handleSendMail,
           handleSendMail_tailor_settled, handleSendMail_content_settled,
           handleSendMail_failed, uploadNew, handleSearch;
         cbv zeta;
         split_matches;
         rewrite ?history_composed, ?history_attach; reflexivity).
  - (* SaveField *)
    unfold dispatch, saveField. cbv zeta.
    destruct (editModal (app w)); [|left; reflexivity].
    destruct (editDraft (app w)) as [d|]; [|left; reflexivity].
    right. left. exists d. reflexivity.
  - (* UndoClick *)
    unfold dispatch, undoField. cbv zeta.
    destruct (editModal (app w)); [|left; reflexivity].
    destruct (Nat.ltb_spec 1 (length (history (app w)))) as [Hlt|_]; [|left; reflexivity].
    right. right. split; [exact Hlt | reflexivity].
Qed.

Lemma history_step (toLowerCase : jsstring -> jsstring) (e : event) (w : World) (a : ResumeAnalysis) :
  isOpenEdit e = false ->
  (exists rest, history (app w) = a :: rest) ->
  exists rest, history (app (step toLowerCase w e)) = a :: rest.
Proof.
  intros He [rest Hh]. unfold step. destruct (crashed w); [eauto|].
  assert (Hd : exists rest', history (app (dispatch toLowerCase e w)) = a :: rest').
  { destruct (history_dispatch toLowerCase e w He) as [H | [[d H] | [Hlt H]]];
      rewrite H, Hh.
    - eauto.
    - exists (rest ++ [d]). reflexivity.
    - rewrite Hh in Hlt. unfold dropLast. destruct rest as [|b rest]; [cbn in Hlt; lia|].
      cbn [length]. replace (S (S (length rest)) - 1)%nat with (S (length rest)) by lia.
      eexists. reflexivity. }
  unfold rerender. destruct (decide _); exact Hd.
Qed.

(** X8.  Once the edit modal has been opened, the history keeps the
    snapshot taken then as its first entry through every later event, until
    the modal is opened again: undo never empties the history nor goes behind
    that snapshot. *)
Theorem history_keeps_first_snapshot (toLowerCase : jsstring -> jsstring) (w : World)
    (a : ResumeAnalysis) (es : list event) :
  analysis (app w) = Some a -> Forall (fun e => isOpenEdit e = false) es ->
  exists rest, history (app (run toLowerCase (openEditModal w) es)) = a :: rest.
Proof.
  intros Ha Hes.
  assert (H0 : exists rest, history (app (openEditModal w)) = a :: rest).
  { unfold openEditModal. rewrite Ha. exists []. reflexivity. }
  revert H0. generalize (openEditModal w). clear Ha.
  induction es as [|e es IH]; intros w0 H0; [exact H0|].
  apply Forall_cons in Hes as [He Hes]. cbn [run fold_left].
  apply (IH Hes). apply history_step; assumption.
Qed.

Lemma history_keeps_first_snapshot_witness :
  exists rest,
    history (app (run asciiLower (openEditModal board)
                    [UpdateDraft (SummaryField (js "New")); SaveField; UndoClick; UndoClick;
                     UndoClick; ChangeFilter H72]))
    = profile [js "React"; js "Rocq"] :: rest.
Proof.
  apply (history_keeps_first_snapshot asciiLower board (profile [js "React"; js "Rocq"])).
  - vm_compute. reflexivity.
  - apply (bool_decide_unpack _). vm_compute. exact I.
Defined.

(** X9.  "Save Draft" followed by "Undo" gives back the history there was
    and replaces the draft by the last snapshot of that history: the edits
    just saved are gone from the draft and from the history. *)
Theorem save_then_undo (w : World) (d : ResumeAnalysis) :
  editDraft (app w) = Some d -> history (app w) <> [] ->
  let w' := undoField (saveField w) in
  history (app w') = history (app w) /\ editDraft (app w') = last (history (app w)).
Proof.
  intros Hd Hh. cbv zeta. unfold saveField. rewrite Hd. unfold undoField.
  cbn [app upd history setHistory].
  set (h := history (app w)) in *.
  assert (Hlen : (1 <= length h)%nat) by (destruct h; [contradiction | cbn; lia]).
  assert (E : (1 <? length (h ++ [d]))%nat = true)
    by (apply Nat.ltb_lt; rewrite length_app; cbn; lia).
  rewrite E. cbn [app upd history setHistory editDraft setEditDraft].
  fold h. unfold dropLast. rewrite length_app. cbn [length].
  replace (length h + 1 - 1)%nat with (length h) by lia.
  replace (length h + 1 - 2)%nat with (length h - 1)%nat by lia.
  split.
  - apply take_app_length.
  - rewrite lookup_app_l by lia. rewrite last_lookup. f_equal. lia.
Qed.

Lemma save_then_undo_witness :
  let w := handleUpdateDraft (SummaryField (js "New")) (openEditModal board) in
  editDraft (app (undoField (saveField w))) = Some (profile [js "React"; js "Rocq"]).
Proof.
  intros w. destruct (save_then_undo w (with_field (profile [js "React"; js "Rocq"])
                                            (SummaryField (js "New")))) as [_ Hd].
  - vm_compute. reflexivity.
  - vm_compute. discriminate.
  - rewrite Hd. vm_compute. reflexivity.
Defined.

Lemma draft_step (toLowerCase : jsstring -> jsstring) (e : event) (w : World) :
  isDraftEvent e = true ->
  let w' := step toLowerCase w e in
  analysis (app w') = analysis (app w) /\ jobs (app w') = jobs (app w) /\
  resumeText (app w') = resumeText (app w) /\ pending w' = pending w /\
  effects w' = effects w.
Proof.
  intros He. cbv zeta. unfold step. destruct (crashed w); [repeat split|].
  unfold rerender.
  destruct e; try discriminate;
    unfold dispatch, addSkillInModal, removeSkillInModal, handleUpdateDraft, saveField,
      undoField; cbv zeta;
    split_matches;
    repeat split.
Qed.

(** X10.  Editing in the modal is isolated from the live profile: no
    sequence of draft edits, saves, undos, skill changes in the modal and
    closings of it changes the analysis, the job list or the resume text,
    starts a request or exports anything. *)
Theorem draft_edits_isolated (toLowerCase : jsstring -> jsstring) (w : World)
    (es : list event) :
  Forall (fun e => isDraftEvent e = true) es ->
  let w' := run toLowerCase w es in
  analysis (app w') = analysis (app w) /\ jobs (app w') = jobs (app w) /\
  resumeText (app w') = resumeText (app w) /\ pending w' = pending w /\
  effects w' = effects w.
Proof.
  intros Hes. cbv zeta. revert w. induction es as [|e es IH]; intros w; [repeat split|].
  apply Forall_cons in Hes as [He Hes]. cbn [run fold_left].
  destruct (draft_step toLowerCase e w He) as (H1 & H2 & H3 & H4 & H5).
  destruct (IH Hes (step toLowerCase w e)) as (I1 & I2 & I3 & I4 & I5).
  rewrite <- H1, <- H2, <- H3, <- H4, <- H5. repeat split; assumption.
Qed.

Lemma draft_edits_isolated_witness :
  let w' :=
    run asciiLower (openEditModal board)
      [TypeSkillInModal (js "Lean"); AddSkillInModal; RemoveSkillInModal (js "React");
       UpdateDraft (SummaryField (js "New")); SaveField; CloseEdit] in
  analysis (app w') = Some (profile [js "React"; js "Rocq"]) /\ pending w' = ∅.
Proof.
  intros w'.
  destruct (draft_edits_isolated asciiLower (openEditModal board)
              [TypeSkillInModal (js "Lean"); AddSkillInModal; RemoveSkillInModal (js "React");
               UpdateDraft (SummaryField (js "New")); SaveField; CloseEdit])
    as (Ha & _ & _ & Hp & _).
  - apply (bool_decide_unpack _). vm_compute. exact I.
  - fold w' in Ha, Hp. rewrite Ha, Hp. split; vm_compute; reflexivity.
Defined.

(** X11.  Expanding a job card is undone by the same click: toggling a
    position twice gives back the world there was, and a toggle changes the
    expansion of no other position. *)
Theorem toggleJobExpansion_twice (index : nat) (w : World) :
  toggleJobExpansion index (toggleJobExpansion index w) = w /\
  forall other, other <> index ->
    (other ∈ expandedJobs (app (toggleJobExpansion index w)) <->
     other ∈ expandedJobs (app w)).
Proof.
  split.
  - destruct w as [s d p n ef c]. destruct s. unfold toggleJobExpansion, upd. cbn.
    f_equal. unfold setExpandedJobs. cbn. f_equal.
    destruct (decide (index ∈ expandedJobs0)) as [Hin|Hnot].
    + destruct (decide (index ∈ expandedJobs0 ∖ {[index]})) as [Hin'|_].
      * apply elem_of_difference in Hin' as [_ Hn]. exfalso. apply Hn.
        apply elem_of_singleton. reflexivity.
      * apply set_eq. intros x.
        rewrite elem_of_union, elem_of_difference, elem_of_singleton.
        destruct (decide (x = index)) as [->|Hne]; tauto.
    + destruct (decide (index ∈ expandedJobs0 ∪ {[index]})) as [_|Hnot'].
      * apply set_eq. intros x.
        rewrite elem_of_difference, elem_of_union, elem_of_singleton.
        destruct (decide (x = index)) as [->|Hne]; tauto.
      * exfalso. apply Hnot'. apply elem_of_union. right.
        apply elem_of_singleton. reflexivity.
  - intros other Hne. unfold toggleJobExpansion. cbn.
    destruct (decide (index ∈ expandedJobs (app w))).
    + rewrite elem_of_difference, elem_of_singleton. tauto.
    + rewrite elem_of_union, elem_of_singleton. tauto.
Qed.

Lemma toggleJobExpansion_twice_witness :
  0%nat ∈ expandedJobs (app (toggleJobExpansion 1 (toggleJobExpansion 0 board))).
Proof.
  apply (proj2 (toggleJobExpansion_twice 1 (toggleJobExpansion 0 board)) 0%nat).
  - lia.
  - apply (bool_decide_unpack _). vm_compute. exact I.
Defined.

End SessionFacts.

(** ** More on the upload pipeline and the search *)

Module PipelineFacts.
Import JsString GeminiService App Spec Samples Coverage.

Lemma trimStart_blank (s : jsstring) : forallb isWhiteSpace s = true -> trimStart s = [].
Proof.
  induction s as [|c s IH]; [reflexivity|]. cbn. intros H.
  apply andb_true_iff in H as [Hc Hs]. rewrite Hc. exact (IH Hs).
Qed.

Lemma trim_blank (s : jsstring) : forallb isWhiteSpace s = true -> trim s = [].
Proof. intros H. unfold trim. rewrite (trimStart_blank s H). reflexivity. Qed.

(** A step that leaves the time filter alone is the handler itself. *)
Lemma step_dispatch (toLowerCase : jsstring -> jsstring) (w : World) (e : event) :
  crashed w = false ->
  timeFilter (app (dispatch toLowerCase e w)) = timeFilter (app w) ->
  step toLowerCase w e = dispatch toLowerCase e w.
Proof.
  intros Hrun Htf. unfold step, rerender. rewrite Hrun.
  destruct (decide _) as [|Hne]; [reflexivity | contradiction].
Qed.

(** X12.  A file whose text is empty or white space only is refused before
    any gateway call: the upload error is set, the analyzing flag is cleared,
    the resume text stays and nothing is pending for it. *)
Theorem blank_upload_refused (toLowerCase : jsstring -> jsstring) (w : World) (id : nat)
    (name decoded : jsstring) (f : TimeFilter) (t : JobType) :
  crashed w = false -> pending w !! id = Some (AwaitRead name f t) ->
  endsWith name (js ".docx") = false -> forallb isWhiteSpace decoded = true ->
  let w' := step toLowerCase w (ReadDone id decoded) in
  error (app w') = Some uploadFailed /\ isAnalyzing (app w') = false /\
  resumeText (app w') = resumeText (app w) /\ analysis (app w') = analysis (app w) /\
  pending w' = delete id (pending w).
Proof.
  intros Hrun Hid Hname Hblank. cbv zeta.
  assert (Hd : dispatch toLowerCase (ReadDone id decoded) w
               = onDrop_failed (upd (setError None) (upd (setIsAnalyzing true) (finish id w)))).
  { unfold dispatch. rewrite Hid. unfold onDrop_loaded. cbv zeta. rewrite Hname.
    unfold onDrop_extracted. rewrite (trim_blank decoded Hblank). reflexivity. }
  rewrite step_dispatch; [|exact Hrun|rewrite Hd; reflexivity].
  rewrite Hd. repeat split.
Qed.

Lemma blank_upload_refused_witness :
  let w' := step asciiLower dropped (ReadDone 0 (js "   ")) in
  error (app w') = Some uploadFailed /\ pending w' = ∅.
Proof.
  destruct (blank_upload_refused asciiLower dropped 0 (js "cv.txt") (js "   ") H24 AllTypes)
    as (He & _ & _ & _ & Hp).
  - reflexivity.
  - vm_compute. reflexivity.
  - vm_compute. reflexivity.
  - vm_compute. reflexivity.
  - split; [exact He | rewrite Hp; vm_compute; reflexivity].
Defined.



(** X14.  A failure of the analysis stage does not roll the structuring
    back: after a structuring that resolved and an analysis that was rejected,
    the resume text is the structured text, the profile is the one from
    before, the upload error is set and no search is started. *)
Theorem analysis_failure_keeps_text (toLowerCase : jsstring -> jsstring) (w : World)
    (id : nat) (rawText structuredText : jsstring) (f : TimeFilter) (t : JobType)
    (o1 : outcome (response unit)) (o2 : outcome (response parsed_analysis)) :
  crashed w = false -> pending w !! id = Some (AwaitStructure rawText f t) ->
  structureResume rawText o1 = Resolved structuredText ->
  analyzeResume toLowerCase structuredText o2 = Rejected ->
  let w' :=
    run toLowerCase w [StructureSettled id o1; AnalyzeSettled (nextId w) o2] in
  resumeText (app w') = structuredText /\ analysis (app w') = analysis (app w) /\
  jobs (app w') = jobs (app w) /\
  error (app w') = Some uploadFailed /\ isAnalyzing (app w') = false /\
  pending w' = delete (nextId w) (<[nextId w := AwaitAnalyze structuredText f t]>
                                    (delete id (pending w))).
Proof.
  intros Hrun Hid Hs Ha. cbv zeta. cbn [run fold_left].
  rewrite (UploadFacts.step_structure_settled toLowerCase w id rawText f t o1 Hrun Hid).
  rewrite Hs. unfold onDrop_structure_settled. cbv zeta.
  set (w1 := spawn (AwaitAnalyze structuredText f t) _).
  assert (Hd : dispatch toLowerCase (AnalyzeSettled (nextId w) o2) w1
               = onDrop_failed (finish (nextId w) w1)).
  { unfold dispatch. subst w1. cbn [pending spawn upd finish nextId].
    rewrite lookup_insert_eq, Ha. reflexivity. }
  rewrite step_dispatch; [|exact Hrun|rewrite Hd; reflexivity].
  rewrite Hd. subst w1. repeat split.
Qed.

Lemma analysis_failure_keeps_text_witness :
  let w' := run asciiLower structuring [StructureSettled 1 silent; AnalyzeSettled 2 garbled] in
  resumeText (app w') = resumeBytes /\ analysis (app w') = None /\
  error (app w') = Some uploadFailed.
Proof.
  destruct (analysis_failure_keeps_text asciiLower structuring 1 resumeBytes resumeBytes
              H24 AllTypes silent garbled) as (Ht & Ha & _ & He & _).
  - reflexivity.
  - vm_compute. reflexivity.
  - vm_compute. reflexivity.
  - vm_compute. reflexivity.
  - change (nextId structuring) with 2%nat in *.
    split; [exact Ht|]. split; [rewrite Ha; reflexivity | exact He].
Defined.

(** X15.  "Upload New" does not call a pending search off: when the search
    resolves after the reset, its jobs fill the list although there is no
    profile any more. *)
Theorem reset_keeps_pending_search (toLowerCase : jsstring -> jsstring) (w : World)
    (id : nat) (a : ResumeAnalysis) (f : TimeFilter) (t : JobType)
    (o : outcome (response (list Job))) (results : list Job) :
  crashed w = false -> is_Some (analysis (app w)) ->
  pending w !! id = Some (AwaitSearch a f t) -> searchJobs o = Resolved results ->
  let w' := run toLowerCase w [UploadNew; SearchSettled id o] in
  analysis (app w') = None /\ resumeText (app w') = [] /\ jobs (app w') = results.
Proof.
  intros Hrun [a0 Ha0] Hid Ho. cbv zeta. cbn [run fold_left].
  assert (H1 : step toLowerCase w UploadNew = uploadNew w).
  { assert (Hb : App.board (app w) = true)
      by (unfold App.board; rewrite Ha0; apply bool_decide_eq_true_2; eauto).
    assert (Hd : dispatch toLowerCase UploadNew w = uploadNew w)
      by (unfold dispatch; rewrite Hb; reflexivity).
    rewrite step_dispatch; [exact Hd | exact Hrun | rewrite Hd; reflexivity]. }
  rewrite H1.
  rewrite (SearchFacts.step_search_settled toLowerCase (uploadNew w) id a f t o Hrun Hid).
  rewrite Ho. repeat split.
Qed.

Lemma reset_keeps_pending_search_witness :
  let w' := run asciiLower oneSearch [UploadNew; SearchSettled 4 (reply [globex])] in
  analysis (app w') = None /\ jobs (app w') = [globex].
Proof.
  destruct (reset_keeps_pending_search asciiLower oneSearch 4
              (profile [js "React"; js "Rocq"]) H48 AllTypes (reply [globex]) [globex])
    as (Ha & _ & Hj).
  - reflexivity.
  - vm_compute. eexists. reflexivity.
  - vm_compute. reflexivity.
  - reflexivity.
  - split; [exact Ha | exact Hj].
Defined.

(** X16.  What reaches the search prompt: skills after the fifth never do,
    for remote jobs the location constraint is the same whatever the
    profile's location is, and for hybrid and on-site jobs it is the
    constraint of "all" with a sentence added. *)
Theorem searchCriteria_inputs (a : ResumeAnalysis) (f : TimeFilter) (t : JobType) :
  searchCriteria a f t = searchCriteria (with_skills a (firstn 5 (skills a))) f t /\
  (forall a', locationConstraint (searchCriteria a f Remote)
              = locationConstraint (searchCriteria a' f Remote)) /\
  (exists more,
     more <> [] /\
     locationConstraint (searchCriteria a f Hybrid)
       = locationConstraint (searchCriteria a f AllTypes) ++ more) /\
  (exists more,
     more <> [] /\
     locationConstraint (searchCriteria a f Onsite)
       = locationConstraint (searchCriteria a f AllTypes) ++ more).
Proof.
  split; [|split; [|split]].
  - unfold searchCriteria. cbn [skills with_skills suggestedRoles experienceLevel
                                 candidateLocation].
    rewrite firstn_firstn. reflexivity.
  - intros a'. reflexivity.
  - eexists. split; [|reflexivity]. discriminate.
  - eexists. split; [|reflexivity]. discriminate.
Qed.

End PipelineFacts.

(** ** More on tailoring and the application email *)

Module DeliveryFacts.
Import JsString GeminiService App Spec Samples Coverage.

(** X17.  A generation from a job card that fails exports nothing: when
    the gateway call is rejected, its reply cannot be parsed or lacks the
    artifact asked for (as the reply without text does), the error naming the
    artifact kind is set, the only call made is the log entry, and the
    generation key is released. *)
Theorem tailoring_failure_exports_nothing (toLowerCase : jsstring -> jsstring) (w : World)
    (id : nat) (text : jsstring) (job : Job) (type : ArtifactKind)
    (o : outcome (response Tailored)) :
  crashed w = false -> pending w !! id = Some (AwaitTailor text job type) ->
  match generateTailoredContent o with
  | Resolved c => artifactOf type c = None
  | Rejected => True
  end ->
  let w' := step toLowerCase w (TailorSettled id o) in
  error (app w') = Some (tailoringFailed type) /\
  effects w' = effects w ++ [ConsoleError] /\
  isGenerating (app w') = None /\ pending w' = delete id (pending w).
Proof.
  intros Hrun Hid Hfail. cbv zeta.
  assert (Hd : dispatch toLowerCase (TailorSettled id o) w
               = upd (setIsGenerating None)
                   (emit ConsoleError
                      (upd (setError (Some (tailoringFailed type))) (finish id w)))).
  { unfold dispatch. rewrite Hid. unfold handleGenerateTailored_settled. cbv zeta.
    destruct (generateTailoredContent o) as [c|]; [|reflexivity].
    unfold artifactOf in Hfail. destruct type; rewrite Hfail; reflexivity. }
  rewrite PipelineFacts.step_dispatch; [|exact Hrun|rewrite Hd; reflexivity].
  rewrite Hd. repeat split.
Qed.

Lemma tailoring_failure_exports_nothing_witness :
  let w' := step asciiLower tailoring (TailorSettled 4 silent) in
  error (app w') = Some (js "Failed to generate tailored resume.") /\
  isGenerating (app w') = None.
Proof.
  destruct (tailoring_failure_exports_nothing asciiLower tailoring 4 resumeBytes acme
              ResumeKind silent) as (He & _ & Hk & _).
  - reflexivity.
  - vm_compute. reflexivity.
  - vm_compute. reflexivity.
  - split; [exact He | exact Hk].
Defined.




(** X19.  A gateway failure while the email is prepared leaves the modal
    open for another try: when the composition of the mail, or the tailoring
    for its attachments, is rejected, the error is set, the sending flag is
    cleared, the job of the modal stays, and neither a document nor a mail
    link leaves the component. *)
Theorem mail_failure_keeps_modal (toLowerCase : jsstring -> jsstring) (w : World) (id : nat)
    (text : jsstring) (job : Job) (options : EmailOptions) (subject body : option jsstring) :
  crashed w = false ->
  (forall o,
     pending w !! id = Some (AwaitMailContent text job options) ->
     generateEmailContent o = Rejected ->
     let w' := step toLowerCase w (ComposeSettled id o) in
     emailModalJob (app w') = emailModalJob (app w) /\ error (app w') = Some mailFailed /\
     isSendingMail (app w') = false /\ effects w' = effects w ++ [ConsoleError] /\
     pending w' = delete id (pending w)) /\
  (forall o,
     pending w !! id = Some (AwaitMailTailor text job options subject body) ->
     generateTailoredContent o = Rejected ->
     let w' := step toLowerCase w (TailorSettled id o) in
     emailModalJob (app w') = emailModalJob (app w) /\ error (app w') = Some mailFailed /\
     isSendingMail (app w') = false /\ effects w' = effects w ++ [ConsoleError] /\
     pending w' = delete id (pending w)).
Proof.
  intros Hrun. split; intros o Hid Ho; cbv zeta.
  - assert (Hd : dispatch toLowerCase (ComposeSettled id o) w
                 = handleSendMail_failed (finish id w)).
    { unfold dispatch. rewrite Hid. unfold handleSendMail_content_settled.
      rewrite Ho. reflexivity. }
    rewrite PipelineFacts.step_dispatch; [|exact Hrun|rewrite Hd; reflexivity].
    rewrite Hd. repeat split.
  - assert (Hd : dispatch toLowerCase (TailorSettled id o) w
                 = handleSendMail_failed (finish id w)).
    { unfold dispatch. rewrite Hid. unfold handleSendMail_tailor_settled.
      rewrite Ho. reflexivity. }
    rewrite PipelineFacts.step_dispatch; [|exact Hrun|rewrite Hd; reflexivity].
    rewrite Hd. repeat split.
Qed.

Lemma mail_failure_keeps_modal_witness :
  let w' := step asciiLower composing (ComposeSettled 4 Rejected) in
  emailModalJob (app w') = Some acme /\ error (app w') = Some mailFailed /\
  isSendingMail (app w') = false.
Proof.
  destruct (mail_failure_keeps_modal asciiLower composing 4 resumeBytes acme
              {| attachTailoredResume := true; attachTailoredCoverLetter := true;
                 generateMailContent := true; attachUploadedResume := false |}
              None None eq_refl) as [Hcompose _].
  destruct (Hcompose Rejected) as (Hm & He & Hs & _).
  - vm_compute. reflexivity.
  - reflexivity.
  - split; [rewrite Hm; vm_compute; reflexivity|]. split; [exact He | exact Hs].
Defined.

(** X20.  A composition reply without text is not a failure: with no
    tailored attachment asked for, the mail link is handed over at once with
    an undefined subject and a body that begins with the word "undefined",
    the modal is closed and no error is set. *)
Theorem empty_composition_sends_undefined (toLowerCase : jsstring -> jsstring) (w : World)
    (id : nat) (resume : jsstring) (job : Job) (options : EmailOptions)
    (reply : response EmailContent) :
  crashed w = false -> pending w !! id = Some (AwaitMailContent resume job options) ->
  attachTailoredResume options = false -> attachTailoredCoverLetter options = false ->
  truthy (text reply) = false ->
  let w' := step toLowerCase w (ComposeSettled id (Resolved reply)) in
  exists docs info,
    effects w' = effects w ++ docs
                   ++ [MailTo (contactEmail job) None (js "undefined" ++ info)] /\
    emailModalJob (app w') = None /\ error (app w') = error (app w) /\
    isSendingMail (app w') = false.
Proof.
  intros Hrun Hid Hr Hc Ht. cbv zeta.
  assert (Hd : dispatch toLowerCase (ComposeSettled id (Resolved reply)) w
               = handleSendMail_attach resume job options None None None (finish id w)).
  { unfold dispatch. rewrite Hid. unfold handleSendMail_content_settled, generateEmailContent.
    rewrite Ht. cbn [subject body]. unfold handleSendMail_composed. rewrite Hr, Hc.
    reflexivity. }
  rewrite PipelineFacts.step_dispatch; [rewrite Hd|exact Hrun|].
  - unfold handleSendMail_attach. cbv zeta.
    destruct (attachUploadedResume options).
    + exists [DownloadAsPDF resume (js "Original_Resume.pdf")]. eexists.
      split; [|repeat split]. rewrite (app_assoc (effects w)). reflexivity.
    + exists []. eexists. split; [|repeat split]. reflexivity.
  - rewrite Hd. unfold handleSendMail_attach. cbv zeta.
    destruct (attachUploadedResume options); reflexivity.
Qed.

Lemma empty_composition_sends_undefined_witness :
  exists docs info,
    effects (step asciiLower composingPlain (ComposeSettled 4 silent))
      = effects composingPlain ++ docs
          ++ [MailTo (Some (js "jobs@acme.example")) None (js "undefined" ++ info)].
Proof.
  destruct (empty_composition_sends_undefined asciiLower composingPlain 4 resumeBytes acme
              {| attachTailoredResume := false; attachTailoredCoverLetter := false;
                 generateMailContent := true; attachUploadedResume := false |}
              {| text := None; parsed := None |})
    as (docs & info & He & _).
  - reflexivity.
  - vm_compute. reflexivity.
  - reflexivity.
  - reflexivity.
  - reflexivity.
  - exists docs, info. exact He.
Defined.

End DeliveryFacts.

(** ** More on the document renderer *)

Module LayoutFacts.
Import JsString GeminiService Renderer Spec Samples Coverage.

(** X21.  A line that begins with one of the section keywords, in upper
    case or in lower case, is classified as a header whatever follows the
    keyword on the line. *)
Theorem keyword_lines_are_headers (keyword rest : jsstring) :
  In keyword sectionKeywords ->
  isHeader (keyword ++ rest) = true /\ isHeader (asciiLower keyword ++ rest) = true.
Proof.
  intros Hin. unfold isHeader, startsWithKeyword.
  assert (Hk : forall s, existsb (startsWith_i s) sectionKeywords = true ->
                         allCaps s || existsb (startsWith_i s) sectionKeywords
                         || startsWith s [hash] = true).
  { intros s ->. rewrite orb_true_r. reflexivity. }
  cbn in Hin.
  repeat (destruct Hin as [<- | Hin]; [split; apply Hk; vm_compute; reflexivity|]).
  contradiction.
Qed.

Lemma keyword_lines_are_headers_witness :
  isHeader (js "experience" ++ js "d engineer with a taste for proofs") = true.
Proof.
  assert (Hin : In (js "EXPERIENCE") sectionKeywords) by (vm_compute; left; reflexivity).
  exact (proj2 (keyword_lines_are_headers (js "EXPERIENCE")
                  (js "d engineer with a taste for proofs") Hin)).
Defined.

Lemma marker_not_header (c : N) (rest : jsstring) :
  (c =? bulletGlyph) || (c =? hyphen) || (c =? asterisk) = true ->
  isHeader (c :: rest) = false.
Proof.
  intros Hc. apply orb_true_iff in Hc as [Hc | Hc];
    [apply orb_true_iff in Hc as [Hc | Hc]|];
    apply N.eqb_eq in Hc; subst c; unfold isHeader.
  - replace (allCaps (bulletGlyph :: rest)) with false
      by (unfold allCaps; cbn; rewrite andb_false_r; reflexivity).
    reflexivity.
  - replace (allCaps (hyphen :: rest)) with false
      by (unfold allCaps; cbn; rewrite andb_false_r; reflexivity).
    reflexivity.
  - replace (allCaps (asterisk :: rest)) with false
      by (unfold allCaps; cbn; rewrite andb_false_r; reflexivity).
    reflexivity.
Qed.

Section Layout.
Variable pageWidth : Q.
Variable splitTextToSize : fontStyle -> Q -> jsstring -> Q -> list jsstring.
Variable toUpperCase : jsstring -> jsstring.

(** X22.  A line that begins, after trimming, with a bullet glyph, a hyphen
    or an asterisk is drawn as a bullet whichever of the three it is: the
    glyph is drawn at the cursor, the text behind the marker and the white
    space after it is wrapped in normal weight beside it, the cursor moves
    down by 5.5 per wrapped line, and no page is started. *)
Theorem bullet_lines_drawn_alike (y : Q) (line : jsstring) (marker : N) (rest : jsstring) :
  trim line = marker :: rest ->
  (marker =? bulletGlyph)%N || (marker =? hyphen)%N || (marker =? asterisk)%N = true ->
  let splitText :=
    splitTextToSize Normal 10%Q (trimStart rest) (pageWidth - margin * 2 - 5)%Q in
  renderLine pageWidth splitTextToSize toUpperCase y line =
    ([SetFont Normal; SetFontSize 10%Q; SetTextColor 60 60 60;
      TextAt [bulletGlyph] (margin + 2)%Q y;
      TextBlock splitText (margin + 7)%Q y],
     (y + lines_of (length splitText) * 5.5)%Q).
Proof.
  intros Ht Hm. cbv zeta. unfold renderLine. rewrite Ht.
  rewrite (marker_not_header marker rest Hm).
  assert (Hb : isBullet (marker :: rest) = true).
  { unfold isBullet. cbn [startsWith]. rewrite !andb_true_r.
    rewrite (N.eqb_sym bulletGlyph), (N.eqb_sym hyphen), (N.eqb_sym asterisk). exact Hm. }
  rewrite Hb. unfold stripBullet. rewrite Hm. reflexivity.
Qed.

Lemma lines_nonneg (n : nat) : (0 <= lines_of n * 5)%Q.
Proof.
  unfold lines_of. apply Qmult_le_0_compat; [|discriminate].
  unfold Qle. cbn. lia.
Qed.

Lemma renderLine_block_within (y : Q) (line : jsstring) (ls : list jsstring) (yb : Q) :
  In (TextBlock ls margin yb) (fst (renderLine pageWidth splitTextToSize toUpperCase y line)) ->
  (yb <= 275)%Q.
Proof.
  unfold renderLine. destruct (trim line) as [|c rest]; [intros []|].
  destruct (isHeader (c :: rest)).
  { cbn. intros H. repeat (destruct H as [H|H]; [discriminate|]). contradiction. }
  destruct (isBullet (c :: rest)).
  { cbn. intros H. repeat (destruct H as [H|H]; [discriminate|]). contradiction. }
  cbv zeta.
  set (splitText := splitTextToSize _ _ _ _).
  destruct (Qlt_le_dec 275 (y + lines_of (length splitText) * 5)) as [_|Hle];
    cbn [fst app]; intros H;
    repeat (destruct H as [H|H]; [try discriminate|]); try contradiction;
    injection H as _ <-.
  - discriminate.
  - pose proof (lines_nonneg (length splitText)). lra.
Qed.

(** X23.  Sub-header and body text never starts below the bottom margin:
    wherever the lines before it have left the cursor, every block the
    renderer places at the left margin is placed at 275 or above. *)
Theorem paragraphs_start_above_margin (lines : list jsstring) (y : Q)
    (ls : list jsstring) (yb : Q) :
  In (TextBlock ls margin yb)
    (fst (renderLines pageWidth splitTextToSize toUpperCase y lines)) ->
  (yb <= 275)%Q.
Proof.
  revert y. induction lines as [|line rest IH]; intros y; [intros []|].
  cbn [renderLines].
  pose proof (renderLine_block_within y line ls yb) as H1.
  destruct (renderLine pageWidth splitTextToSize toUpperCase y line) as [ops y1].
  specialize (IH y1).
  destruct (renderLines pageWidth splitTextToSize toUpperCase y1 rest) as [ops' y2].
  cbn [fst] in *. intros Hin. apply in_app_or in Hin as [Hin|Hin]; auto.
Qed.

End Layout.

Lemma bullet_lines_drawn_alike_witness :
  renderLine a4Width oneLine sameCase 20%Q (js "  *   item ") =
    ([SetFont Normal; SetFontSize 10%Q; SetTextColor 60 60 60;
      TextAt [bulletGlyph] (margin + 2)%Q 20%Q;
      TextBlock [js "item"] (margin + 7)%Q 20%Q],
     (20 + lines_of 1 * 5.5)%Q).
Proof.
  apply (bullet_lines_drawn_alike a4Width oneLine sameCase 20%Q (js "  *   item ")
           asterisk (js "   item")).
  - vm_compute. reflexivity.
  - vm_compute. reflexivity.
Defined.

Lemma paragraphs_start_above_margin_witness :
  (20 <= 275)%Q.
Proof.
  apply (paragraphs_start_above_margin a4Width oneLine sameCase
           [js "- a"; js "Plain text"] 270%Q [js "Plain text"] 20%Q).
  vm_compute. right. right. right. right. right. right. right. right. right. left.
  reflexivity.
Defined.

End LayoutFacts.
